(** * The attribute container stores of plaso: a shallow embedding

    The development follows [plaso/storage/fake/fake_store.py] (the in-memory
    store) and [plaso/storage/sqlite/sqlite_file.py] (the SQLite-based store).

    Python objects are modelled as follows: an attribute container is its
    [CONTAINER_TYPE], its identifier and the dictionary of its attributes; a
    raised exception is a value of [exception]; a method that can raise
    returns a [Result]; [dict]s are [gmap]s, [OrderedDict]s are association
    lists kept in insertion order. *)

From Stdlib Require Import Ascii.
From stdpp Require Import base numbers list strings gmap pretty sorting.

Open Scope string_scope.
Open Scope Z_scope.

(** ** Python values, exceptions and results *)

Module Python.

(** Attribute container identifiers ([plaso/storage/identifiers.py]). *)
Inductive identifier :=
| FakeIdentifier (sequence_number : Z)
| SQLTableIdentifier (name : string) (sequence_number : Z).

Inductive pyvalue :=
| PyNone
| PyBool (b : bool)
| PyInt (z : Z)
| PyStr (s : string)
| PyList (l : list string)
| PyIdentifier (i : identifier)
| PyObject (repr : string).

Inductive exception :=
| IOError (message : string)
| ValueError (message : string)
| TypeError (message : string)
| AttributeError (message : string)
| KeyError (message : string)
| ReferenceError
| sqlite3_OperationalError (message : string)
| sqlite3_InterfaceError (message : string).

Inductive Result (A : Type) :=
| Ok (a : A)
| Raise (e : exception).

Arguments Ok {A} a.
Arguments Raise {A} e.

Definition bind {A B} (r : Result A) (k : A → Result B) : Result B :=
  match r with
  | Ok a => k a
  | Raise e => Raise e
  end.

(** [try: ... except sqlite3.OperationalError as exception: raise IOError(...)],
    the wrapper found around every [cursor.execute] of the SQLite store. *)
Definition except_OperationalError {A} (r : Result A) (message : string)
  : Result A :=
  match r with
  | Raise (sqlite3_OperationalError _) => Raise (IOError message)
  | _ => r
  end.

Definition is_IOError {A} (r : Result A) : Prop :=
  ∃ message, r = Raise (IOError message).

Definition raises {A} (r : Result A) : Prop := ∃ e, r = Raise e.

(** Truth value testing: [if value:]. *)
Definition truthy (v : pyvalue) : bool :=
  match v with
  | PyNone => false
  | PyBool b => b
  | PyInt z => negb (z =? 0)
  | PyStr s => negb (String.eqb s "")
  | PyList l => match l with [] => false | _ => true end
  | PyIdentifier _ => true
  | PyObject _ => true
  end.

Definition sequence_number (i : identifier) : Z :=
  match i with
  | FakeIdentifier n => n
  | SQLTableIdentifier _ n => n
  end.

(** [identifier.CopyToString()]. *)
Definition CopyToString (i : identifier) : string :=
  match i with
  | FakeIdentifier n => pretty n
  | SQLTableIdentifier name n => name +:+ "." +:+ pretty n
  end.

(** *** The built-in [int(text, 10)] *)

(** The white space that [int] strips from a text: the characters 9 to 13
    and the space. *)
Definition is_space (a : ascii) : bool :=
  let n := nat_of_ascii a in
  ((9 <=? n)%nat && (n <=? 13)%nat) || (n =? 32)%nat.

Definition digit_value (a : ascii) : option Z :=
  let n := nat_of_ascii a in
  if ((48 <=? n)%nat && (n <=? 57)%nat)%bool
  then Some (Z.of_nat n - 48) else None.

Fixpoint lstrip (l : list ascii) : list ascii :=
  match l with
  | a :: l' => if is_space a then lstrip l' else l
  | [] => []
  end.

Definition strip (l : list ascii) : list ascii :=
  rev (lstrip (rev (lstrip l))).

(** Decimal digits, where single underscores may separate digits. *)
Fixpoint digits (acc : Z) (after_digit : bool) (l : list ascii) : option Z :=
  match l with
  | [] => if after_digit then Some acc else None
  | a :: l' =>
      match digit_value a with
      | Some d => digits (10 * acc + d) true l'
      | None =>
          if (Ascii.eqb a "_"%char && after_digit)%bool
          then digits acc false l' else None
      end
  end.

Definition int_base10 (s : string) : option Z :=
  match strip (String.list_ascii_of_string s) with
  | a :: l =>
      if Ascii.eqb a "-"%char then Z.opp <$> digits 0 false l
      else if Ascii.eqb a "+"%char then digits 0 false l
      else digits 0 false (a :: l)
  | [] => None
  end.

(** The built-in [int(value)]. *)
Definition py_int (v : pyvalue) : Result pyvalue :=
  match v with
  | PyBool b => Ok (PyInt (if b then 1 else 0))
  | PyInt z => Ok (PyInt z)
  | PyStr s =>
      match int_base10 s with
      | Some z => Ok (PyInt z)
      | None => Raise (ValueError "invalid literal for int() with base 10")
      end
  | _ => Raise (TypeError "int() argument must be a string or a number")
  end.

End Python.

Export Python.

Notation "'let*' x ':=' r 'in' k" := (bind r (λ x, k))
  (at level 10, x name, r at level 100, k at level 200,
   format "'[v' 'let*'  x  :=  r  'in'  '/' k ']'").
Notation "'let*' ' p ':=' r 'in' k" :=
  (bind r (λ x, match x with p => k end))
  (at level 10, p strict pattern, r at level 100, k at level 200,
   format "'[v' 'let*'  ' p  :=  r  'in'  '/' k ']'").

(** ** [plaso/lib/definitions.py] *)

Module definitions.

(** Modelled from the spec: the constants of [plaso.lib.definitions], which is
    not part of the sources at hand; the spec gives the metadata values as
    [compression_format] in none, zlib; [serialization_format] json;
    [storage_type] in session, task. *)
Definition COMPRESSION_FORMAT_NONE := "none".
Definition COMPRESSION_FORMAT_ZLIB := "zlib".
Definition COMPRESSION_FORMATS :=
  [COMPRESSION_FORMAT_NONE; COMPRESSION_FORMAT_ZLIB].
Definition SERIALIZER_FORMAT_JSON := "json".
Definition STORAGE_TYPE_SESSION := "session".
Definition STORAGE_TYPE_TASK := "task".
Definition STORAGE_TYPES := [STORAGE_TYPE_SESSION; STORAGE_TYPE_TASK].

End definitions.

(** [value in strings], for a Python value and a collection of [str]. *)
Definition py_in (v : pyvalue) (l : list string) : bool :=
  match v with
  | PyStr s => bool_decide (s ∈ l)
  | _ => false
  end.

Definition py_eq_str (v : pyvalue) (s : string) : bool :=
  match v with
  | PyStr s' => String.eqb s' s
  | _ => false
  end.

(** [dict.get(key, None)]. *)
Definition dict_get (d : gmap string pyvalue) (key : string) : pyvalue :=
  default PyNone (d !! key).

(** ** Storage metadata of the SQLite store *)

Module Metadata.

Definition _FORMAT_VERSION := 20210621.
Definition _WITH_SCHEMA_FORMAT_VERSION := 20210621.
Definition _APPEND_COMPATIBLE_FORMAT_VERSION := 20190309.
Definition _UPGRADE_COMPATIBLE_FORMAT_VERSION := 20210621.
Definition _READ_COMPATIBLE_FORMAT_VERSION := 20190309.

(** [int(format_version, 10)] with [except (TypeError, ValueError)]: [None]
    stands for either exception. *)
Definition parse_format_version (v : pyvalue) : option Z :=
  match v with
  | PyStr s => int_base10 s
  | _ => None
  end.

(** [SQLiteStorageFile._CheckStorageMetadata]: returns the dictionary, in which
    [format_version] has been replaced by its integer value. *)
Definition _CheckStorageMetadata (metadata_values : gmap string pyvalue)
    (check_readable_only : bool) : Result (gmap string pyvalue) :=
  let format_version := dict_get metadata_values "format_version" in
  if negb (truthy format_version) then Raise (IOError "Missing format version.")
  else
    match parse_format_version format_version with
    | None => Raise (IOError "Invalid format version")
    | Some format_version =>
        if negb check_readable_only
           && (format_version <? _APPEND_COMPATIBLE_FORMAT_VERSION)
        then Raise (IOError "Format version is too old and can no longer be written.")
        else if format_version <? _READ_COMPATIBLE_FORMAT_VERSION
        then Raise (IOError "Format version is too old and can no longer be read.")
        else if _FORMAT_VERSION <? format_version
        then Raise (IOError "Format version is too new and not yet supported.")
        else
          let metadata_values :=
            <["format_version" := PyInt format_version]> metadata_values in
          let compression_format :=
            dict_get metadata_values "compression_format" in
          if negb (py_in compression_format definitions.COMPRESSION_FORMATS)
          then Raise (IOError "Unsupported compression format")
          else
            let serialization_format :=
              dict_get metadata_values "serialization_format" in
            if negb (py_eq_str serialization_format
                       definitions.SERIALIZER_FORMAT_JSON)
            then Raise (IOError "Unsupported serialization format")
            else
              let storage_type := dict_get metadata_values "storage_type" in
              if negb (py_in storage_type definitions.STORAGE_TYPES)
              then Raise (IOError "Unsupported storage type")
              else Ok metadata_values
    end.

(** What the format allows: the stored [format_version] is the decimal text
    of an integer between the oldest version that can still be read (or
    appended to, when the file is opened for writing) and the current one. *)
Definition version_supported (v : pyvalue) (check_readable_only : bool)
  : Prop :=
  ∃ n, parse_format_version v = Some n ∧
       (if check_readable_only then _READ_COMPATIBLE_FORMAT_VERSION
        else _APPEND_COMPATIBLE_FORMAT_VERSION) ≤ n ≤ _FORMAT_VERSION.

Definition metadata_supported (metadata_values : gmap string pyvalue)
    (check_readable_only : bool) : Prop :=
  version_supported (dict_get metadata_values "format_version")
    check_readable_only ∧
  (dict_get metadata_values "compression_format" = PyStr "none" ∨
   dict_get metadata_values "compression_format" = PyStr "zlib") ∧
  dict_get metadata_values "serialization_format" = PyStr "json" ∧
  (dict_get metadata_values "storage_type" = PyStr "session" ∨
   dict_get metadata_values "storage_type" = PyStr "task").

(** A file written by the current version, checked for reading. *)
Definition current_metadata : gmap string pyvalue :=
  <["format_version" := PyStr "20210621"]>
    (<["compression_format" := PyStr "zlib"]>
       (<["serialization_format" := PyStr "json"]>
          (<["storage_type" := PyStr "session"]> ∅))).

(** A file of a version that is too old. *)
Definition old_metadata : gmap string pyvalue :=
  <["format_version" := PyStr "20170707"]> current_metadata.

End Metadata.


(** ** Attribute containers *)

Module Containers.

(** An attribute container object: the class constant [CONTAINER_TYPE], the
    identifier kept by [SetIdentifier] and read by [GetIdentifier], and the
    attributes of the object. *)
Record AttributeContainer := {
  CONTAINER_TYPE : string;
  _identifier : option identifier;
  attributes : gmap string pyvalue;
}.

Definition GetIdentifier (container : AttributeContainer) : option identifier :=
  _identifier container.

Definition SetIdentifier (container : AttributeContainer) (i : identifier)
  : AttributeContainer :=
  {| CONTAINER_TYPE := CONTAINER_TYPE container;
     _identifier := Some i;
     attributes := attributes container |}.

(** [getattr(container, name, None)]. *)
Definition getattr (container : AttributeContainer) (name : string) : pyvalue :=
  dict_get (attributes container) name.

Definition setattr (container : AttributeContainer) (name : string)
    (value : pyvalue) : AttributeContainer :=
  {| CONTAINER_TYPE := CONTAINER_TYPE container;
     _identifier := _identifier container;
     attributes := <[name := value]> (attributes container) |}.

Definition delattr (container : AttributeContainer) (name : string)
  : AttributeContainer :=
  {| CONTAINER_TYPE := CONTAINER_TYPE container;
     _identifier := _identifier container;
     attributes := delete name (attributes container) |}.

(** Modelled from the spec: the accessors of the event tag and event data
    containers ([plaso/containers/events.py] is not part of the sources at
    hand). The reference map of the SQLite store names the attributes that
    hold the identifiers: [_event_identifier] for an event tag, and the event
    data stream identifier of event data. *)
Definition GetEventIdentifier (container : AttributeContainer) : pyvalue :=
  getattr container "_event_identifier".

Definition GetEventDataStreamIdentifier (container : AttributeContainer)
  : pyvalue :=
  getattr container "_event_data_stream_identifier".

Definition SetEventDataStreamIdentifier (container : AttributeContainer)
    (i : identifier) : AttributeContainer :=
  setattr container "_event_data_stream_identifier" (PyIdentifier i).

(** [value.CopyToString()] on a value that should be an identifier. *)
Definition py_CopyToString (v : pyvalue) : Result string :=
  match v with
  | PyIdentifier i => Ok (CopyToString i)
  | _ => Raise (AttributeError "object has no attribute CopyToString")
  end.

(** [event.timestamp], used as an integer. *)
Definition timestamp (event : AttributeContainer) : Result Z :=
  match getattr event "timestamp" with
  | PyInt z => Ok z
  | _ => Raise (TypeError "timestamp is not an integer")
  end.

(** A time range ([plaso/storage/time_range.py]); an end point is an integer
    or [None]. *)
Record TimeRange := {
  start_timestamp : option Z;
  end_timestamp : option Z;
}.

(** [a < b] and [a > b] where [b] may be [None]. *)
Definition py_lt (a : Z) (b : option Z) : Result bool :=
  match b with
  | Some b => Ok (a <? b)
  | None => Raise (TypeError "not supported between instances of int and NoneType")
  end.

Definition py_gt (a : Z) (b : option Z) : Result bool :=
  match b with
  | Some b => Ok (b <? a)
  | None => Raise (TypeError "not supported between instances of int and NoneType")
  end.

End Containers.

Export Containers.

(** ** Insertion-ordered dictionaries *)

Module OrderedDict.

Section ordered_dict.
Context {V : Type}.

(** [key in d]. *)
Fixpoint contains (d : list (string * V)) (key : string) : bool :=
  match d with
  | [] => false
  | (k, _) :: d' => if String.eqb k key then true else contains d' key
  end.

(** [d.get(key, None)]. *)
Fixpoint get (d : list (string * V)) (key : string) : option V :=
  match d with
  | [] => None
  | (k, v) :: d' => if String.eqb k key then Some v else get d' key
  end.

(** [d[key] = value]: an existing key keeps its position, a new key goes to
    the end. *)
Fixpoint set (d : list (string * V)) (key : string) (value : V)
  : list (string * V) :=
  match d with
  | [] => [(key, value)]
  | (k, v) :: d' =>
      if String.eqb k key then (k, value) :: d'
      else (k, v) :: set d' key value
  end.

(** [del d[key]]. *)
Fixpoint remove (d : list (string * V)) (key : string) : list (string * V) :=
  match d with
  | [] => []
  | (k, v) :: d' =>
      if String.eqb k key then d' else (k, v) :: remove d' key
  end.

(** [d.values()]. *)
Definition values (d : list (string * V)) : list V := d.*2.

(** [d.move_to_end(key, last=False)], for a key of [d]. *)
Definition move_to_front (d : list (string * V)) (key : string)
  : list (string * V) :=
  match get d key with
  | Some v => (key, v) :: remove d key
  | None => d
  end.

(** [d.popitem(last=True)]. *)
Definition popitem_last (d : list (string * V)) : list (string * V) :=
  removelast d.

End ordered_dict.

End OrderedDict.

(** ** The base store ([plaso/storage/interface.py]) *)

Module BaseStore.

(** The container types the stores know of. The tuples [_CONTAINER_TYPES],
    [_SESSION_STORE_ONLY_CONTAINER_TYPES] and
    [_TASK_STORE_ONLY_CONTAINER_TYPES] are class constants of
    [interface.BaseStore], which is not part of the sources at hand: they are
    parameters of the development. *)
Class ContainerTypes := {
  _CONTAINER_TYPES : list string;
  _SESSION_STORE_ONLY_CONTAINER_TYPES : list string;
  _TASK_STORE_ONLY_CONTAINER_TYPES : list string;
}.

Definition _CONTAINER_TYPE_EVENT := "event".
Definition _CONTAINER_TYPE_EVENT_DATA := "event_data".
Definition _CONTAINER_TYPE_EVENT_DATA_STREAM := "event_data_stream".
Definition _CONTAINER_TYPE_EVENT_SOURCE := "event_source".
Definition _CONTAINER_TYPE_EVENT_TAG := "event_tag".
Definition _CONTAINER_TYPE_SESSION_COMPLETION := "session_completion".
Definition _CONTAINER_TYPE_SESSION_CONFIGURATION := "session_configuration".
Definition _CONTAINER_TYPE_SESSION_START := "session_start".

(** Modelled from the spec: [BaseStore._GetAttributeContainerNextSequenceNumber]
    and [BaseStore._SetAttributeContainerNextSequenceNumber], which are not
    part of the sources at hand. The store holds a counter per container
    type, from 0 for the in-memory store and from the number of rows of the
    table for the SQLite store. The sequence number of a row identifier is
    the 1-based row number, and the SQLite store caches a container it has
    written at index [next_sequence_number - 1]: the counter is advanced and
    its new value returned. *)
Definition _GetAttributeContainerNextSequenceNumber
    (sequence_numbers : gmap string Z) (container_type : string)
  : Z * gmap string Z :=
  let next_sequence_number :=
    default 0 (sequence_numbers !! container_type) + 1 in
  (next_sequence_number,
   <[container_type := next_sequence_number]> sequence_numbers).

Definition _SetAttributeContainerNextSequenceNumber
    (sequence_numbers : gmap string Z) (container_type : string)
    (next_sequence_number : Z) : gmap string Z :=
  <[container_type := next_sequence_number]> sequence_numbers.

End BaseStore.

Export BaseStore.

(** ** The event heap ([plaso/storage/fake/event_heap.py]) *)

Module EventHeap.

(** Modelled from the spec: the event heap, which is not part of the sources
    at hand: a min-heap of (timestamp, insertion index, event), drained in
    order. The heap is a leftist heap; an event is a reference to an
    attribute container object. *)
Inductive heap :=
| Leaf
| Node (rank : nat) (key : Z * nat) (event : nat) (left right : heap).

(** The order of the tuples [(timestamp, event_index)]. *)
Definition key_le (a b : Z * nat) : bool :=
  (a.1 <? b.1) || ((a.1 =? b.1) && (a.2 <=? b.2)%nat).

Definition rank (h : heap) : nat :=
  match h with
  | Leaf => 0%nat
  | Node r _ _ _ _ => r
  end.

Definition make_node (key : Z * nat) (event : nat) (a b : heap) : heap :=
  if (rank b <=? rank a)%nat then Node (S (rank b)) key event a b
  else Node (S (rank a)) key event b a.

Fixpoint merge (h1 : heap) : heap → heap :=
  fix merge_h1 (h2 : heap) : heap :=
    match h1, h2 with
    | Leaf, _ => h2
    | _, Leaf => h1
    | Node _ k1 e1 l1 r1, Node _ k2 e2 l2 r2 =>
        if key_le k1 k2 then make_node k1 e1 l1 (merge r1 h2)
        else make_node k2 e2 l2 (merge_h1 r2)
    end.

Fixpoint size (h : heap) : nat :=
  match h with
  | Leaf => 0%nat
  | Node _ _ _ l r => S (size l + size r)
  end.

(** [EventHeap.PushEvent(event, event_index)], for an event of the given
    timestamp. *)
Definition PushEvent (h : heap) (event_timestamp : Z) (event : nat)
    (event_index : nat) : heap :=
  merge (Node 1 (event_timestamp, event_index) event Leaf Leaf) h.

(** [EventHeap.PopEvent()]. *)
Definition PopEvent (h : heap) : option (nat * heap) :=
  match h with
  | Leaf => None
  | Node _ _ e l r => Some (e, merge l r)
  end.

Fixpoint pop_events (fuel : nat) (h : heap) : list nat :=
  match fuel with
  | O => []
  | S fuel =>
      match PopEvent h with
      | None => []
      | Some (e, h') => e :: pop_events fuel h'
      end
  end.

(** [EventHeap.PopEvents()]: every event of the heap, in order. *)
Definition PopEvents (h : heap) : list nat := pop_events (size h) h.

(** For the statements about the heap. *)

(** The entries of a heap: key and event. *)
Fixpoint entries (h : heap) : list ((Z * nat) * nat) :=
  match h with
  | Leaf => []
  | Node _ k e l r => (k, e) :: entries l ++ entries r
  end.

Fixpoint heap_ordered (h : heap) : Prop :=
  match h with
  | Leaf => True
  | Node _ k _ l r =>
      Forall (λ x, key_le k x.1 = true) (entries l ++ entries r) ∧
      heap_ordered l ∧ heap_ordered r
  end.

(** What [pop_events] pops, with the keys. *)
Fixpoint drain (fuel : nat) (h : heap) : list ((Z * nat) * nat) :=
  match fuel with
  | O => []
  | S fuel =>
      match h with
      | Leaf => []
      | Node _ k e l r => (k, e) :: drain fuel (merge l r)
      end
  end.

End EventHeap.

(** ** The in-memory store ([plaso/storage/fake/fake_store.py]) *)

Module Fake.

Section fake_store.
Context {container_types : ContainerTypes}.

(** The attributes of a [FakeStore] object. The values of the dictionaries
    are references to attribute container objects. *)
Record FakeStore := {
  _attribute_containers : gmap string (list (string * nat));
  _event_tag_per_event_identifier : gmap string nat;
  _is_open : bool;
  _attribute_container_sequence_numbers : gmap string Z;
  storage_type : string;
}.

(** The objects of the program and the store: [objects] holds the attribute
    container objects, and a reference is a position in it. The caller of
    the store and the store itself hold references; what one of them does
    to an object is seen through every reference to it. *)
Record World := {
  objects : list AttributeContainer;
  store : FakeStore;
}.

(** [FakeStore(storage_type=...)]. *)
Definition __init__ (storage_type : string) : FakeStore :=
  {| _attribute_containers := ∅;
     _event_tag_per_event_identifier := ∅;
     _is_open := false;
     _attribute_container_sequence_numbers := ∅;
     storage_type := storage_type |}.

Definition deref (w : World) (reference : nat) : Result AttributeContainer :=
  match objects w !! reference with
  | Some container => Ok container
  | None => Raise ReferenceError
  end.

(** A new object of the caller. *)
Definition new_object (w : World) (container : AttributeContainer)
  : World * nat :=
  ({| objects := (objects w ++ [container])%list; store := store w |},
   length (objects w)).

(** [setattr(container, name, value)] by the caller of the store. *)
Definition caller_setattr (w : World) (reference : nat) (name : string)
    (value : pyvalue) : World :=
  {| objects := alter (λ c, setattr c name value) reference (objects w);
     store := store w |}.

(** [copy.deepcopy(container)]: a new object with the same content. *)
Definition deepcopy (objs : list AttributeContainer)
    (container : AttributeContainer) : list AttributeContainer * nat :=
  ((objs ++ [container])%list, length objs).

Definition _RaiseIfNotReadable (self : FakeStore) : Result () :=
  if negb (_is_open self)
  then Raise (IOError "Unable to write to closed storage writer.")
  else Ok ().

Definition _RaiseIfNotWritable (self : FakeStore) : Result () :=
  if negb (_is_open self)
  then Raise (IOError "Unable to write to closed storage writer.")
  else Ok ().

Definition _WriteExistingAttributeContainer (w : World) (container : nat)
  : Result World :=
  let* c := deref w container in
  match GetIdentifier c with
  | Some (FakeIdentifier n) =>
      let lookup_key := CopyToString (FakeIdentifier n) in
      match _attribute_containers (store w) !! CONTAINER_TYPE c with
      | None => Raise (IOError "Missing attribute container")
      | Some containers =>
          if negb (OrderedDict.contains containers lookup_key)
          then Raise (IOError "Missing attribute container")
          else
            let containers :=
              OrderedDict.set containers lookup_key container in
            Ok {| objects := objects w;
                  store :=
                    {| _attribute_containers :=
                         <[CONTAINER_TYPE c := containers]>
                           (_attribute_containers (store w));
                       _event_tag_per_event_identifier :=
                         _event_tag_per_event_identifier (store w);
                       _is_open := _is_open (store w);
                       _attribute_container_sequence_numbers :=
                         _attribute_container_sequence_numbers (store w);
                       storage_type := storage_type (store w) |} |}
      end
  | _ => Raise (IOError "Unsupported attribute container identifier type")
  end.

Definition _WriteNewAttributeContainer (w : World) (container : nat)
  : Result World :=
  let* c := deref w container in
  let containers :=
    default [] (_attribute_containers (store w) !! CONTAINER_TYPE c) in
  let '(next_sequence_number, sequence_numbers) :=
    _GetAttributeContainerNextSequenceNumber
      (_attribute_container_sequence_numbers (store w)) (CONTAINER_TYPE c) in
  let identifier := FakeIdentifier next_sequence_number in
  let c := SetIdentifier c identifier in
  let objs := <[container := c]> (objects w) in
  let lookup_key := CopyToString identifier in
  let '(objs, stored) := deepcopy objs c in
  let containers := OrderedDict.set containers lookup_key stored in
  let attribute_containers :=
    <[CONTAINER_TYPE c := containers]> (_attribute_containers (store w)) in
  if String.eqb (CONTAINER_TYPE c) _CONTAINER_TYPE_EVENT_TAG then
    let* lookup_key := py_CopyToString (GetEventIdentifier c) in
    Ok {| objects := objs;
          store :=
            {| _attribute_containers := attribute_containers;
               _event_tag_per_event_identifier :=
                 <[lookup_key := stored]>
                   (_event_tag_per_event_identifier (store w));
               _is_open := _is_open (store w);
               _attribute_container_sequence_numbers := sequence_numbers;
               storage_type := storage_type (store w) |} |}
  else
    Ok {| objects := objs;
          store :=
            {| _attribute_containers := attribute_containers;
               _event_tag_per_event_identifier :=
                 _event_tag_per_event_identifier (store w);
               _is_open := _is_open (store w);
               _attribute_container_sequence_numbers := sequence_numbers;
               storage_type := storage_type (store w) |} |}.

(** Modelled from the spec: [BaseStore.AddAttributeContainer] and
    [BaseStore.UpdateAttributeContainer], which are not part of the sources
    at hand: a write fails when the store is not writable, and otherwise
    writes a new, or an existing, attribute container. *)
Definition AddAttributeContainer (w : World) (container : nat)
  : Result World :=
  let* _ := _RaiseIfNotWritable (store w) in
  _WriteNewAttributeContainer w container.

Definition UpdateAttributeContainer (w : World) (container : nat)
  : Result World :=
  let* _ := _RaiseIfNotWritable (store w) in
  _WriteExistingAttributeContainer w container.

Definition set_is_open (self : FakeStore) (is_open : bool) : FakeStore :=
  {| _attribute_containers := _attribute_containers self;
     _event_tag_per_event_identifier := _event_tag_per_event_identifier self;
     _is_open := is_open;
     _attribute_container_sequence_numbers :=
       _attribute_container_sequence_numbers self;
     storage_type := storage_type self |}.

Definition Close (self : FakeStore) : Result FakeStore :=
  if negb (_is_open self) then Raise (IOError "Store already closed.")
  else Ok (set_is_open self false).

(** [Open]: the keyword arguments, such as [read_only], are not used. *)
Definition Open (self : FakeStore) (read_only : bool) : Result FakeStore :=
  if _is_open self then Raise (IOError "Store already opened.")
  else Ok (set_is_open self true).

Definition GetAttributeContainerByIdentifier (self : FakeStore)
    (container_type : string) (i : identifier) : Result (option nat) :=
  let containers :=
    default [] (_attribute_containers self !! container_type) in
  let lookup_key := CopyToString i in
  Ok (OrderedDict.get containers lookup_key).

Definition GetAttributeContainerByIndex (self : FakeStore)
    (container_type : string) (index : Z) : Result (option nat) :=
  if negb (bool_decide (container_type ∈ _CONTAINER_TYPES))
  then Raise (IOError "Unsupported attribute container type")
  else
    let containers :=
      default [] (_attribute_containers self !! container_type) in
    let number_of_containers := Z.of_nat (length containers) in
    if (index <? 0) || (number_of_containers <=? index) then Ok None
    else Ok (OrderedDict.values containers !! Z.to_nat index).

Definition GetAttributeContainers (self : FakeStore) (container_type : string)
  : Result (list nat) :=
  let containers :=
    default [] (_attribute_containers self !! container_type) in
  Ok (OrderedDict.values containers).

Definition GetEventTagByEventIdentifier (self : FakeStore)
    (event_identifier : identifier) : Result (option nat) :=
  match event_identifier with
  | FakeIdentifier _ =>
      let lookup_key := CopyToString event_identifier in
      Ok (_event_tag_per_event_identifier self !! lookup_key)
  | _ => Raise (IOError "Unsupported event identifier type")
  end.

Definition GetNumberOfAttributeContainers (self : FakeStore)
    (container_type : string) : Result Z :=
  let containers :=
    default [] (_attribute_containers self !! container_type) in
  Ok (Z.of_nat (length containers)).

Definition HasAttributeContainers (self : FakeStore) (container_type : string)
  : Result bool :=
  let containers :=
    default [] (_attribute_containers self !! container_type) in
  Ok (match containers with [] => false | _ => true end).

(** The test of the loop of [GetSortedEvents]: whether the event is left out. *)
Definition outside_time_range (time_range : option TimeRange)
    (event_timestamp : Z) : Result bool :=
  match time_range with
  | None => Ok false
  | Some time_range =>
      let* before := py_lt event_timestamp (start_timestamp time_range) in
      if before then Ok true
      else py_gt event_timestamp (end_timestamp time_range)
  end.

(** The loop of [GetSortedEvents], over what is left of
    [enumerate(generator)]. *)
Fixpoint push_events (w : World) (time_range : option TimeRange)
    (event_index : nat) (generator : list nat) (sorted_events : EventHeap.heap)
  : Result EventHeap.heap :=
  match generator with
  | [] => Ok sorted_events
  | event :: generator =>
      let* e := deref w event in
      let* event_timestamp := timestamp e in
      let* skip := outside_time_range time_range event_timestamp in
      if skip : bool
      then push_events w time_range (S event_index) generator sorted_events
      else push_events w time_range (S event_index) generator
             (EventHeap.PushEvent sorted_events event_timestamp event
                event_index)
  end.

Definition GetSortedEvents (w : World) (time_range : option TimeRange)
  : Result (list nat) :=
  if negb (_is_open (store w))
  then Raise (IOError "Unable to read from closed storage writer.")
  else
    let* generator := GetAttributeContainers (store w) _CONTAINER_TYPE_EVENT in
    let* sorted_events := push_events w time_range 0 generator EventHeap.Leaf in
    Ok (EventHeap.PopEvents sorted_events).

(** For the statements about [GetSortedEvents]. *)

(** The event object behind a reference has the given integer timestamp. *)
Definition has_timestamp (w : World) (event : nat) (t : Z) : Prop :=
  ∃ e, objects w !! event = Some e ∧ timestamp e = Ok t.

(** The end points of the time range, when there is one, are integers. *)
Definition integer_end_points (time_range : option TimeRange) : Prop :=
  match time_range with
  | None => True
  | Some time_range =>
      is_Some (start_timestamp time_range) ∧
      is_Some (end_timestamp time_range)
  end.

(** The timestamp lies in the time range, end points included; without a
    time range every timestamp does. *)
Definition in_time_range (time_range : option TimeRange) (t : Z) : Prop :=
  match time_range with
  | None => True
  | Some time_range =>
      ∃ s e, start_timestamp time_range = Some s ∧
             end_timestamp time_range = Some e ∧ s ≤ t ≤ e
  end.

(** The order of (timestamp, insertion index), for the events at two
    positions of the table of events. *)
Definition before (timestamps : list Z) (i j : nat) : Prop :=
  ∃ ti tj, timestamps !! i = Some ti ∧ timestamps !! j = Some tj ∧
           (ti < tj ∨ (ti = tj ∧ (i < j)%nat)).

(** The entries that the loop of [GetSortedEvents] pushes, for the events
    from position [index] on. *)
Fixpoint selected (time_range : option TimeRange) (index : nat)
    (events : list nat) (timestamps : list Z) : list ((Z * nat) * nat) :=
  match events, timestamps with
  | event :: events, t :: timestamps =>
      match outside_time_range time_range t with
      | Ok false =>
          ((t, index), event) :: selected time_range (S index) events timestamps
      | _ => selected time_range (S index) events timestamps
      end
  | _, _ => []
  end.

End fake_store.

End Fake.

(** ** The database behind the SQLite store *)

Module sqlite3.

(** What the serializer writes. *)
Inductive serialized :=
| SerializedValue (value : pyvalue)
| SerializedContainer (container_type : string)
    (attributes : list (string * pyvalue)).

(** The values of the columns: [JSON] is the text that the serializer has
    written, [BLOB] its zlib-compressed form. *)
Inductive sqlvalue :=
| NULL
| INTEGER (z : Z)
| TEXT (s : string)
| JSON (data : serialized)
| BLOB (data : serialized).

(** A table: the definitions of its columns and its rows, in the order of
    their insertion. The [_identifier] of a row (its rowid) is its 1-based
    position: rows are only ever inserted, without an [_identifier] of their
    own, and never deleted. *)
Record table := {
  column_definitions : list (string * string);
  rows : list (gmap string sqlvalue);
}.

(** A connection: the path of the database file and the content of the
    database as seen through the connection. *)
Record connection := {
  database_path : string;
  database : gmap string table;
}.

Inductive comparison := GreaterEqual | LessEqual | Equal.

(** [column >= z], [column <= z] or [column = z]. *)
Definition condition : Type := string * comparison * Z.

(** The value that Python sees for a value of a column. *)
Definition py_of_sql (v : sqlvalue) : pyvalue :=
  match v with
  | NULL => PyNone
  | INTEGER z => PyInt z
  | TEXT s => PyStr s
  | JSON _ => PyObject "str"
  | BLOB _ => PyObject "bytes"
  end.

(** The binding of a Python value to a parameter of a query. *)
Definition sql_of_py (v : pyvalue) : Result sqlvalue :=
  match v with
  | PyNone => Ok NULL
  | PyBool b => Ok (INTEGER (if b then 1 else 0))
  | PyInt z => Ok (INTEGER z)
  | PyStr s => Ok (TEXT s)
  | _ => Raise (sqlite3_InterfaceError "Error binding parameter")
  end.

(** [sqlite3.connect]: a database file that does not exist is created,
    unless the connection is made with [mode=ro], which fails. *)
Definition connect (files : gmap string (gmap string table)) (path : string)
    (read_only : bool) : Result connection :=
  match files !! path with
  | Some db => Ok {| database_path := path; database := db |}
  | None =>
      if read_only
      then Raise (sqlite3_OperationalError "unable to open database file")
      else Ok {| database_path := path; database := ∅ |}
  end.

(** [connection.commit()]. *)
Definition commit (files : gmap string (gmap string table))
    (c : connection) : gmap string (gmap string table) :=
  <[database_path c := database c]> files.

Definition has_column (t : table) (name : string) : bool :=
  String.eqb name "_identifier" || String.eqb name "rowid"
  || bool_decide (name ∈ (column_definitions t).*1).

Definition get_table (db : gmap string table) (name : string) : Result table :=
  match db !! name with
  | Some t => Ok t
  | None => Raise (sqlite3_OperationalError "no such table")
  end.

Definition check_columns (t : table) (names : list string) : Result () :=
  if forallb (has_column t) names then Ok ()
  else Raise (sqlite3_OperationalError "no such column").

(** [CREATE TABLE name (column_definitions)]; the column [_identifier] is
    left implicit. *)
Definition create_table (db : gmap string table) (name : string)
    (column_definitions : list (string * string))
  : Result (gmap string table) :=
  match db !! name with
  | Some _ => Raise (sqlite3_OperationalError "table already exists")
  | None =>
      Ok (<[name := {| column_definitions := column_definitions;
                       rows := [] |}]> db)
  end.

(** [INSERT INTO name (column_names) VALUES (values)]. *)
Definition insert (db : gmap string table) (name : string)
    (column_names : list string) (values : list sqlvalue)
  : Result (gmap string table) :=
  let* t := get_table db name in
  let* _ := check_columns t column_names in
  let row := list_to_map (zip column_names values) in
  Ok (<[name := {| column_definitions := column_definitions t;
                   rows := (rows t ++ [row])%list |}]> db).

(** [UPDATE name SET column_names = values WHERE _identifier = rowid]. *)
Definition update (db : gmap string table) (name : string)
    (column_names : list string) (values : list sqlvalue) (rowid : Z)
  : Result (gmap string table) :=
  let* t := get_table db name in
  let* _ := check_columns t column_names in
  let set_columns (row : gmap string sqlvalue) :=
    list_to_map (zip column_names values) ∪ row in
  let rows :=
    if (1 <=? rowid) then alter set_columns (Z.to_nat (rowid - 1)) (rows t)
    else rows t in
  Ok (<[name := {| column_definitions := column_definitions t;
                   rows := rows |}]> db).

(** [UPDATE name SET column = value WHERE key_column = key], for a key
    that is a text. *)
Definition update_where (db : gmap string table) (name : string)
    (column : string) (value : sqlvalue) (key_column : string) (key : string)
  : Result (gmap string table) :=
  let* t := get_table db name in
  let* _ := check_columns t [column; key_column] in
  let set_column (row : gmap string sqlvalue) :=
    match row !! key_column with
    | Some (TEXT k) => if String.eqb k key then <[column := value]> row else row
    | _ => row
    end in
  Ok (<[name := {| column_definitions := column_definitions t;
                   rows := set_column <$> rows t |}]> db).

(** The value of a column of a row, with its rowid. *)
Definition column_value (rowid : Z) (row : gmap string sqlvalue)
    (name : string) : sqlvalue :=
  if String.eqb name "_identifier" || String.eqb name "rowid"
  then INTEGER rowid
  else default NULL (row !! name).

(** The comparison of a value of a column with an integer: [NULL] satisfies
    no condition, and text and blobs are greater than every integer. *)
Definition satisfies (v : sqlvalue) (c : comparison) (z : Z) : bool :=
  match v, c with
  | NULL, _ => false
  | INTEGER x, GreaterEqual => z <=? x
  | INTEGER x, LessEqual => x <=? z
  | INTEGER x, Equal => x =? z
  | _, GreaterEqual => true
  | _, _ => false
  end.

Definition satisfies_all (rowid : Z) (row : gmap string sqlvalue)
    (conditions : list condition) : bool :=
  forallb (λ '(name, c, z), satisfies (column_value rowid row name) c z)
    conditions.

(** The order of the values of a column: [NULL], then the integers, then
    text, then blobs. *)
Definition sql_le (a b : sqlvalue) : bool :=
  match a, b with
  | NULL, _ => true
  | INTEGER _, NULL => false
  | INTEGER x, INTEGER y => x <=? y
  | INTEGER _, _ => true
  | TEXT _, (NULL | INTEGER _) => false
  | TEXT x, TEXT y => String.leb x y
  | TEXT _, _ => true
  | JSON _, (NULL | INTEGER _) => false
  | JSON _, _ => true
  | BLOB _, BLOB _ => true
  | BLOB _, _ => false
  end.

(** [ORDER BY]: rows of equal value keep their order. *)
Fixpoint insert_sorted {A} (le : A → A → bool) (x : A) (l : list A) : list A :=
  match l with
  | [] => [x]
  | y :: l' => if le x y then x :: l else y :: insert_sorted le x l'
  end.

Definition order_by {A} (le : A → A → bool) (l : list A) : list A :=
  foldr (insert_sorted le) [] l.

(** The rows of a table, with their rowids. *)
Definition numbered_rows (t : table) : list (Z * gmap string sqlvalue) :=
  imap (λ i row, (Z.of_nat i + 1, row)) (rows t).

(** [SELECT column_names FROM name [WHERE conditions] [ORDER BY order]]:
    the values of the selected columns, row by row. *)
Definition select (db : gmap string table) (name : string)
    (column_names : list string) (conditions : list condition)
    (order : option string) : Result (list (list sqlvalue)) :=
  let* t := get_table db name in
  let* _ := check_columns t column_names in
  let* _ := check_columns t (conditions.*1.*1) in
  let* _ := check_columns t (option_list order) in
  let selected :=
    filter (λ '(rowid, row), satisfies_all rowid row conditions = true)
      (numbered_rows t) in
  let ordered :=
    match order with
    | Some column =>
        order_by (λ '(i, r) '(j, s),
                    sql_le (column_value i r column) (column_value j s column))
          selected
    | None => selected
    end in
  Ok ((λ '(rowid, row), column_value rowid row <$> column_names) <$> ordered).

(** [SELECT MAX(_ROWID_) FROM name LIMIT 1]. *)
Definition select_max_rowid (db : gmap string table) (name : string)
  : Result sqlvalue :=
  let* t := get_table db name in
  Ok (match rows t with
      | [] => NULL
      | _ => INTEGER (Z.of_nat (length (rows t)))
      end).

(** [SELECT name FROM sqlite_master WHERE type = table AND name = ...]. *)
Definition has_table (db : gmap string table) (name : string) : bool :=
  bool_decide (is_Some (db !! name)).

End sqlite3.

(** ** The SQLite store ([plaso/storage/sqlite/sqlite_file.py]) *)

Module SQLite.
Import sqlite3 Metadata.

(** *** The serializer *)

(** Modelled from the spec: the serializer ([plaso/serializer] is not part of
    the sources at hand). The encoding of a container covers every field
    except identifiers, and decoding reconstructs a container of the
    requested type with the same fields; a container without encodable
    content has no encoding. *)
Definition encodable (v : pyvalue) : bool :=
  match v with
  | PyNone | PyIdentifier _ => false
  | _ => true
  end.

Definition WriteSerialized_container (container : AttributeContainer)
  : option serialized :=
  match filter (λ kv, encodable kv.2 = true)
          (map_to_list (attributes container)) with
  | [] => None
  | fields => Some (SerializedContainer (CONTAINER_TYPE container) fields)
  end.

Definition WriteSerialized (value : pyvalue) : sqlvalue :=
  JSON (SerializedValue value).

Definition ReadSerialized (v : sqlvalue) : Result pyvalue :=
  match v with
  | JSON (SerializedValue value) => Ok value
  | _ => Raise (ValueError "unable to read serialized value")
  end.

(** Modelled from the spec: [BaseStore._DeserializeAttributeContainer], which
    is not part of the sources at hand. *)
Definition _DeserializeAttributeContainer (container_type : string)
    (serialized_data : serialized) : Result AttributeContainer :=
  match serialized_data with
  | SerializedContainer t fields =>
      if String.eqb t container_type
      then Ok {| CONTAINER_TYPE := container_type;
                 _identifier := None;
                 attributes := list_to_map fields |}
      else Raise (IOError "Unable to deserialize attribute container")
  | _ => Raise (IOError "Unable to deserialize attribute container")
  end.

(** [AttributeContainersManager.CreateAttributeContainer(container_type)]:
    a container of which no attribute has a value. *)
Definition CreateAttributeContainer (container_type : string)
  : AttributeContainer :=
  {| CONTAINER_TYPE := container_type;
     _identifier := None;
     attributes := ∅ |}.

(** *** Class constants *)

Definition _REFERENCED_CONTAINER_TYPES : list string :=
  [_CONTAINER_TYPE_EVENT; _CONTAINER_TYPE_EVENT_DATA;
   _CONTAINER_TYPE_EVENT_DATA_STREAM; _CONTAINER_TYPE_EVENT_SOURCE].

Definition _CONTAINER_SCHEMA_VERSION := 20210621.

Definition _CONTAINER_SCHEMAS : list (string * list (string * string)) :=
  [("analysis_warning",
    [("message", "str"); ("plugin_name", "str")]);
   ("event",
    [("_event_data_row_identifier", "AttributeContainerIdentifier");
     ("date_time", "dfdatetime.DateTimeValues");
     ("timestamp", "int");
     ("timestamp_desc", "str")]);
   ("event_data_stream",
    [("file_entropy", "str");
     ("md5_hash", "str");
     ("path_spec", "dfvfs.PathSpec");
     ("sha1_hash", "str");
     ("sha256_hash", "str");
     ("yara_match", "str")]);
   ("event_source",
    [("data_type", "str");
     ("file_entry_type", "str");
     ("path_spec", "dfvfs.PathSpec")]);
   ("event_tag",
    [("_event_row_identifier", "AttributeContainerIdentifier");
     ("labels", "List[str]")]);
   ("extraction_warning",
    [("message", "str");
     ("parser_chain", "str");
     ("path_spec", "dfvfs.PathSpec")]);
   ("preprocessing_warning",
    [("message", "str");
     ("path_spec", "dfvfs.PathSpec");
     ("plugin_name", "str")]);
   ("recovery_warning",
    [("message", "str");
     ("parser_chain", "str");
     ("path_spec", "dfvfs.PathSpec")]);
   ("windows_eventlog_provider",
    [("_system_configuration_row_identifier", "AttributeContainerIdentifier");
     ("category_message_files", "List[str]");
     ("event_message_files", "List[str]");
     ("log_source", "str");
     ("log_type", "str");
     ("parameter_message_files", "List[str]")])].

Definition _CONTAINER_SCHEMA_IDENTIFIER_MAPPINGS
  : list (string * list (string * string * string)) :=
  [("event",
    [("event_data", "_event_data_identifier", "_event_data_row_identifier")]);
   ("event_tag",
    [("event", "_event_identifier", "_event_row_identifier")])].

Definition _CONTAINER_SCHEMA_TO_SQLITE_TYPE_MAPPINGS
  : list (string * string) :=
  [("AttributeContainerIdentifier", "INTEGER");
   ("bool", "INTEGER");
   ("int", "INTEGER");
   ("str", "TEXT");
   ("timestamp", "BIGINT")].

Definition _MAXIMUM_CACHED_CONTAINERS : Z := 32 * 1024.

(** [_CONTAINER_SCHEMAS.get(container_type, {})]. *)
Definition schema_of (container_type : string) : list (string * string) :=
  default [] (OrderedDict.get _CONTAINER_SCHEMAS container_type).

(** [sorted(schema.items())] and [sorted(schema.keys())]. *)
Definition sorted_items (schema : list (string * string))
  : list (string * string) :=
  order_by (λ a b, String.leb a.1 b.1) schema.

Definition sorted_keys (schema : list (string * string)) : list string :=
  (sorted_items schema).*1.

(** [data_type in _CONTAINER_SCHEMA_TO_SQLITE_TYPE_MAPPINGS]. *)
Definition has_sqlite_type (data_type : string) : bool :=
  OrderedDict.contains _CONTAINER_SCHEMA_TO_SQLITE_TYPE_MAPPINGS data_type.

(** [if schema:], for a dictionary. *)
Definition nonempty {A} (l : list A) : bool :=
  match l with [] => false | _ => true end.

(** *** The store object *)

Record SQLiteStorageFile := {
  _attribute_container_cache : list (string * AttributeContainer);
  _connection : option connection;
  _is_open : bool;
  _read_only : bool;
  _use_schema : bool;
  compression_format : pyvalue;
  format_version : Z;
  serialization_format : pyvalue;
  storage_type : pyvalue;
  _attribute_container_sequence_numbers : gmap string Z;
  _last_session : Z;
}.

Definition set_cache (self : SQLiteStorageFile)
    (cache : list (string * AttributeContainer)) : SQLiteStorageFile :=
  {| _attribute_container_cache := cache;
     _connection := _connection self;
     _is_open := _is_open self;
     _read_only := _read_only self;
     _use_schema := _use_schema self;
     compression_format := compression_format self;
     format_version := format_version self;
     serialization_format := serialization_format self;
     storage_type := storage_type self;
     _attribute_container_sequence_numbers :=
       _attribute_container_sequence_numbers self;
     _last_session := _last_session self |}.

Definition set_connection (self : SQLiteStorageFile)
    (c : option connection) : SQLiteStorageFile :=
  {| _attribute_container_cache := _attribute_container_cache self;
     _connection := c;
     _is_open := _is_open self;
     _read_only := _read_only self;
     _use_schema := _use_schema self;
     compression_format := compression_format self;
     format_version := format_version self;
     serialization_format := serialization_format self;
     storage_type := storage_type self;
     _attribute_container_sequence_numbers :=
       _attribute_container_sequence_numbers self;
     _last_session := _last_session self |}.

Definition set_sequence_numbers (self : SQLiteStorageFile)
    (sequence_numbers : gmap string Z) : SQLiteStorageFile :=
  {| _attribute_container_cache := _attribute_container_cache self;
     _connection := _connection self;
     _is_open := _is_open self;
     _read_only := _read_only self;
     _use_schema := _use_schema self;
     compression_format := compression_format self;
     format_version := format_version self;
     serialization_format := serialization_format self;
     storage_type := storage_type self;
     _attribute_container_sequence_numbers := sequence_numbers;
     _last_session := _last_session self |}.

(** [SQLiteStorageFile(storage_type=...)]. *)
Definition __init__ (storage_type : string) : SQLiteStorageFile :=
  {| _attribute_container_cache := [];
     _connection := None;
     _is_open := false;
     _read_only := true;
     _use_schema := true;
     compression_format :=
       PyStr (if String.eqb storage_type definitions.STORAGE_TYPE_SESSION
              then definitions.COMPRESSION_FORMAT_ZLIB
              else definitions.COMPRESSION_FORMAT_NONE);
     format_version := _FORMAT_VERSION;
     serialization_format := PyStr definitions.SERIALIZER_FORMAT_JSON;
     storage_type := PyStr storage_type;
     _attribute_container_sequence_numbers := ∅;
     _last_session := 0 |}.

(** The database behind [self._cursor] and [self._connection], which are
    [None] while the store is closed. *)
Definition cursor (self : SQLiteStorageFile) : Result (gmap string table) :=
  match _connection self with
  | Some c => Ok (database c)
  | None => Raise (AttributeError "NoneType object has no attribute execute")
  end.

(** The store after a statement that has changed the database. *)
Definition set_database (self : SQLiteStorageFile) (db : gmap string table)
  : SQLiteStorageFile :=
  set_connection self
    ((λ c, {| database_path := database_path c; database := db |})
       <$> _connection self).

Definition lookup_key (container_type : string) (index : Z) : string :=
  container_type +:+ "." +:+ pretty index.

Definition _CacheAttributeContainerByIndex (self : SQLiteStorageFile)
    (attribute_container : AttributeContainer) (index : Z)
  : SQLiteStorageFile :=
  if (format_version self <? _WITH_SCHEMA_FORMAT_VERSION)
     && String.eqb (CONTAINER_TYPE attribute_container)
          _CONTAINER_TYPE_EVENT_TAG
  then self
  else
    let cache := _attribute_container_cache self in
    let cache :=
      if _MAXIMUM_CACHED_CONTAINERS <=? Z.of_nat (length cache)
      then OrderedDict.popitem_last cache else cache in
    let lookup_key := lookup_key (CONTAINER_TYPE attribute_container) index in
    let cache := OrderedDict.set cache lookup_key attribute_container in
    let cache := OrderedDict.move_to_front cache lookup_key in
    set_cache self cache.

Definition _CreateAttributeContainerTable (self : SQLiteStorageFile)
    (container_type : string) : Result SQLiteStorageFile :=
  let schema := schema_of container_type in
  let column_definitions :=
    if _use_schema self && nonempty schema
    then
      (λ '(name, data_type),
         (name,
          default "TEXT"
            (OrderedDict.get _CONTAINER_SCHEMA_TO_SQLITE_TYPE_MAPPINGS
               data_type)))
        <$> sorted_items schema
    else
      let data_column_type :=
        if py_eq_str (compression_format self)
             definitions.COMPRESSION_FORMAT_ZLIB
        then "BLOB" else "TEXT" in
      ((if String.eqb container_type _CONTAINER_TYPE_EVENT
        then [("_timestamp", "BIGINT")] else [])
         ++ [("_data", data_column_type)])%list in
  let* db := cursor self in
  let* db :=
    except_OperationalError (create_table db container_type column_definitions)
      "Unable to query storage file" in
  Ok (set_database self db).

(** The loop of [_CreatetAttributeContainerFromRow] over
    [enumerate(column_names)]. *)
Fixpoint set_attributes_from_row (schema : list (string * string))
    (container : AttributeContainer) (column_names : list string)
    (values : list sqlvalue) : Result AttributeContainer :=
  match column_names, values with
  | name :: column_names, value :: values =>
      match value with
      | NULL => set_attributes_from_row schema container column_names values
      | _ =>
          let data_type := default "" (OrderedDict.get schema name) in
          let* attribute_value :=
            if String.eqb data_type "bool"
            then Ok (PyBool (truthy (py_of_sql value)))
            else if negb (has_sqlite_type data_type)
            then ReadSerialized value
            else Ok (py_of_sql value) in
          set_attributes_from_row schema
            (setattr container name attribute_value) column_names values
      end
  | _, _ => Ok container
  end.

(** [_CreatetAttributeContainerFromRow], where [values] is the row from
    [first_column_index] on. *)
Definition _CreatetAttributeContainerFromRow (self : SQLiteStorageFile)
    (container_type : string) (column_names : list string)
    (values : list sqlvalue) : Result AttributeContainer :=
  let schema := schema_of container_type in
  if _use_schema self && nonempty schema
  then
    set_attributes_from_row schema (CreateAttributeContainer container_type)
      column_names values
  else
    let* serialized_data :=
      if py_eq_str (compression_format self)
           definitions.COMPRESSION_FORMAT_ZLIB
      then
        match values with
        | BLOB data :: _ => Ok data
        | _ => Raise (TypeError "a bytes-like object is required")
        end
      else
        match values with
        | JSON data :: _ => Ok data
        | _ => Raise (IOError "Unable to deserialize attribute container")
        end in
    _DeserializeAttributeContainer container_type serialized_data.

(** The identifier [SQLTableIdentifier(container_type, row_identifier)] for
    the value of a column or attribute. *)
Definition row_identifier_of (container_type : string) (v : pyvalue)
  : Result identifier :=
  match v with
  | PyInt z => Ok (SQLTableIdentifier container_type z)
  | _ => Raise (TypeError "row identifier is not an integer")
  end.

(** The loop of [_UpdateAttributeContainerAfterDeserialize]. *)
Fixpoint restore_identifiers (container : AttributeContainer)
    (identifier_mappings : list (string * string * string))
  : Result AttributeContainer :=
  match identifier_mappings with
  | [] => Ok container
  | (identifier_container_type, attribute_name, serialized_attribute_name)
      :: identifier_mappings =>
      match getattr container serialized_attribute_name with
      | PyNone => Raise (ValueError "Missing row identifier attribute")
      | row_identifier =>
          let* i := row_identifier_of identifier_container_type row_identifier in
          let container := setattr container attribute_name (PyIdentifier i) in
          let container := delattr container serialized_attribute_name in
          restore_identifiers container identifier_mappings
      end
  end.

Definition _UpdateAttributeContainerAfterDeserialize
    (container : AttributeContainer) : Result AttributeContainer :=
  let identifier_mappings :=
    default []
      (OrderedDict.get _CONTAINER_SCHEMA_IDENTIFIER_MAPPINGS
         (CONTAINER_TYPE container)) in
  if nonempty identifier_mappings
  then restore_identifiers container identifier_mappings
  else if String.eqb (CONTAINER_TYPE container) _CONTAINER_TYPE_EVENT_DATA
  then
    let row_identifier :=
      getattr container "_event_data_stream_row_identifier" in
    if truthy row_identifier
    then
      let* i :=
        row_identifier_of _CONTAINER_TYPE_EVENT_DATA_STREAM row_identifier in
      let container := SetEventDataStreamIdentifier container i in
      Ok (delattr container "_event_data_stream_row_identifier")
    else Ok container
  else Ok container.

(** The loop of [_UpdateAttributeContainerBeforeSerialize]. *)
Fixpoint rewrite_identifiers (container : AttributeContainer)
    (identifier_mappings : list (string * string * string))
  : Result AttributeContainer :=
  match identifier_mappings with
  | [] => Ok container
  | (_, attribute_name, serialized_attribute_name) :: identifier_mappings =>
      match getattr container attribute_name with
      | PyIdentifier (SQLTableIdentifier name n) =>
          rewrite_identifiers
            (setattr container serialized_attribute_name (PyInt n))
            identifier_mappings
      | _ =>
          Raise (IOError "Unsupported attribute container identifier type")
      end
  end.

Definition _UpdateAttributeContainerBeforeSerialize
    (container : AttributeContainer) : Result AttributeContainer :=
  let identifier_mappings :=
    default []
      (OrderedDict.get _CONTAINER_SCHEMA_IDENTIFIER_MAPPINGS
         (CONTAINER_TYPE container)) in
  if nonempty identifier_mappings
  then rewrite_identifiers container identifier_mappings
  else if String.eqb (CONTAINER_TYPE container) _CONTAINER_TYPE_EVENT_DATA
  then
    let event_data_stream_identifier :=
      GetEventDataStreamIdentifier container in
    if truthy event_data_stream_identifier
    then
      match event_data_stream_identifier with
      | PyIdentifier (SQLTableIdentifier name n) =>
          Ok (setattr container "_event_data_stream_row_identifier" (PyInt n))
      | _ => Raise (IOError "Unsupported event data stream identifier type")
      end
    else Ok container
  else Ok container.

(** The rows of [_GetAttributeContainersWithFilter], one container per row;
    the first value of a row is its [_identifier]. *)
Fixpoint containers_from_rows (self : SQLiteStorageFile)
    (container_type : string) (column_names : list string)
    (selected : list (list sqlvalue)) : Result (list AttributeContainer) :=
  match selected with
  | [] => Ok []
  | row :: selected =>
      let* container :=
        _CreatetAttributeContainerFromRow self container_type column_names
          (tail row) in
      let* i := row_identifier_of container_type (py_of_sql (hd NULL row)) in
      let container := SetIdentifier container i in
      let* container := _UpdateAttributeContainerAfterDeserialize container in
      let* containers :=
        containers_from_rows self container_type column_names selected in
      Ok (container :: containers)
  end.

(** [_GetAttributeContainersWithFilter]: the containers that the generator
    yields. The filter expression is a conjunction of conditions; free of
    conditions, it is the empty string or [None]. *)
Definition _GetAttributeContainersWithFilter (self : SQLiteStorageFile)
    (container_type : string) (column_names : list string)
    (filter_expression : list condition) (order : option string)
  : Result (list AttributeContainer) :=
  let* db := cursor self in
  let* selected :=
    except_OperationalError
      (select db container_type ("_identifier" :: column_names)
         filter_expression order)
      "Unable to query storage file for attribute container" in
  containers_from_rows self container_type column_names selected.

Definition _GetCachedAttributeContainer (self : SQLiteStorageFile)
    (container_type : string) (index : Z)
  : option AttributeContainer * SQLiteStorageFile :=
  let lookup_key := lookup_key container_type index in
  match OrderedDict.get (_attribute_container_cache self) lookup_key with
  | Some attribute_container =>
      (Some attribute_container,
       set_cache self
         (OrderedDict.move_to_front (_attribute_container_cache self)
            lookup_key))
  | None => (None, self)
  end.

Definition _HasTable (self : SQLiteStorageFile) (table_name : string)
  : Result bool :=
  let* db := cursor self in
  Ok (has_table db table_name).

Definition _RaiseIfNotReadable (self : SQLiteStorageFile) : Result () :=
  if negb (_is_open self)
  then Raise (IOError "Unable to read from closed storage file.")
  else Ok ().

Definition _RaiseIfNotWritable (self : SQLiteStorageFile) : Result () :=
  if negb (_is_open self)
  then Raise (IOError "Unable to write to closed storage file.")
  else if _read_only self
  then Raise (IOError "Unable to write to read-only storage file.")
  else Ok ().

(** [{row[0]: row[1] for row in self._cursor.fetchall()}]. *)
Definition metadata_values_of (selected : list (list sqlvalue))
  : gmap string pyvalue :=
  foldl (λ d row,
           match row with
           | [TEXT key; value] => <[key := py_of_sql value]> d
           | _ => d
           end) ∅ selected.

Definition _ReadAndCheckStorageMetadata (self : SQLiteStorageFile)
    (check_readable_only : bool) : Result SQLiteStorageFile :=
  let* db := cursor self in
  let* selected :=
    except_OperationalError (select db "metadata" ["key"; "value"] [] None)
      "Unable to query storage file" in
  let metadata_values := metadata_values_of selected in
  let* metadata_values :=
    _CheckStorageMetadata metadata_values check_readable_only in
  let* format_version :=
    match metadata_values !! "format_version" with
    | Some (PyInt n) => Ok n
    | _ => Raise (KeyError "format_version")
    end in
  Ok {| _attribute_container_cache := _attribute_container_cache self;
        _connection := _connection self;
        _is_open := _is_open self;
        _read_only := _read_only self;
        _use_schema := _WITH_SCHEMA_FORMAT_VERSION <=? format_version;
        compression_format := dict_get metadata_values "compression_format";
        format_version := format_version;
        serialization_format :=
          dict_get metadata_values "serialization_format";
        storage_type := dict_get metadata_values "storage_type";
        _attribute_container_sequence_numbers :=
          _attribute_container_sequence_numbers self;
        _last_session := _last_session self |}.

Definition _SerializeAttributeContainer
    (attribute_container : AttributeContainer) : Result serialized :=
  match WriteSerialized_container attribute_container with
  | None => Raise (IOError "Unable to serialize attribute container")
  | Some attribute_container_data => Ok attribute_container_data
  end.

Definition _UpdateStorageMetadataFormatVersion (self : SQLiteStorageFile)
  : Result SQLiteStorageFile :=
  if _UPGRADE_COMPATIBLE_FORMAT_VERSION <=? format_version self
  then
    let* db := cursor self in
    let* db :=
      except_OperationalError
        (update_where db "metadata" "value" (TEXT (pretty _FORMAT_VERSION))
           "key" "format_version")
        "Unable to query storage file" in
    Ok (set_database self db)
  else Ok self.

(** The loop over [sorted(schema.items())] of the two write methods: the
    values of the columns, as Python values or as serialized text. *)
Fixpoint schema_values (container : AttributeContainer)
    (items : list (string * string)) : Result (list (pyvalue + sqlvalue)) :=
  match items with
  | [] => Ok []
  | (name, data_type) :: items =>
      let attribute_value := getattr container name in
      let* value :=
        match attribute_value with
        | PyNone => Ok (inl PyNone)
        | _ =>
            if String.eqb data_type "bool"
            then let* i := py_int attribute_value in Ok (inl i)
            else if negb (has_sqlite_type data_type)
            then Ok (inr (WriteSerialized attribute_value))
            else Ok (inl attribute_value)
        end in
      let* values := schema_values container items in
      Ok (value :: values)
  end.

(** The binding of the values of a query, by [cursor.execute]. *)
Fixpoint bind_values (values : list (pyvalue + sqlvalue))
  : Result (list sqlvalue) :=
  match values with
  | [] => Ok []
  | value :: values =>
      let* v := match value with inl v => sql_of_py v | inr s => Ok s end in
      let* vs := bind_values values in
      Ok (v :: vs)
  end.

(** What a write sends to the database: the names of the columns and the
    values bound to them. *)
Definition outbound_record : Type := list string * list (pyvalue + sqlvalue).

(** The record that [_WriteExistingAttributeContainer] builds. *)
Definition existing_record (container : AttributeContainer)
  : Result outbound_record :=
  let schema := schema_of (CONTAINER_TYPE container) in
  let* values := schema_values container (sorted_items schema) in
  Ok (sorted_keys schema, values).

Definition _WriteExistingAttributeContainer (self : SQLiteStorageFile)
    (container : AttributeContainer)
  : Result (SQLiteStorageFile * AttributeContainer) :=
  match GetIdentifier container with
  | Some (SQLTableIdentifier name n) =>
      let schema := schema_of (CONTAINER_TYPE container) in
      if negb (nonempty schema)
      then Raise (IOError "Unsupported attribute container type")
      else
        let* container := _UpdateAttributeContainerBeforeSerialize container in
        let* '(column_names, values) := existing_record container in
        let* db := cursor self in
        let* values := bind_values values in
        let* db :=
          except_OperationalError
            (update db (CONTAINER_TYPE container) column_names values n)
            "Unable to query storage file" in
        Ok (set_database self db, container)
  | _ => Raise (IOError "Unsupported attribute container identifier type")
  end.

Definition _WriteMetadataValue (self : SQLiteStorageFile) (key : string)
    (value : pyvalue) : Result SQLiteStorageFile :=
  let* db := cursor self in
  let* v := sql_of_py value in
  let* db :=
    except_OperationalError (insert db "metadata" ["key"; "value"] [TEXT key; v])
      "Unable to query storage file" in
  Ok (set_database self db).

Definition _WriteMetadata (self : SQLiteStorageFile)
  : Result SQLiteStorageFile :=
  let* db := cursor self in
  let* db :=
    except_OperationalError
      (create_table db "metadata" [("key", "TEXT"); ("value", "TEXT")])
      "Unable to query storage file" in
  let self := set_database self db in
  let* self :=
    _WriteMetadataValue self "format_version"
      (PyStr (pretty _FORMAT_VERSION)) in
  let* self :=
    _WriteMetadataValue self "compression_format" (compression_format self) in
  let* self :=
    _WriteMetadataValue self "serialization_format"
      (serialization_format self) in
  _WriteMetadataValue self "storage_type" (storage_type self).

(** The record that [_WriteNewAttributeContainer] builds, after the
    identifiers of the container have been rewritten. *)
Definition new_record (self : SQLiteStorageFile)
    (container : AttributeContainer) : Result outbound_record :=
  let schema := schema_of (CONTAINER_TYPE container) in
  if _use_schema self && nonempty schema
  then
    let* values := schema_values container (sorted_items schema) in
    Ok (sorted_keys schema, values)
  else
    let* serialized_data := _SerializeAttributeContainer container in
    let serialized_data :=
      if py_eq_str (compression_format self)
           definitions.COMPRESSION_FORMAT_ZLIB
      then BLOB serialized_data else JSON serialized_data in
    if String.eqb (CONTAINER_TYPE container) _CONTAINER_TYPE_EVENT
    then Ok (["_timestamp"; "_data"],
             [inl (getattr container "timestamp"); inr serialized_data])
    else Ok (["_data"], [inr serialized_data]).

Definition _WriteNewAttributeContainer (self : SQLiteStorageFile)
    (container : AttributeContainer)
  : Result (SQLiteStorageFile * AttributeContainer) :=
  let '(next_sequence_number, sequence_numbers) :=
    _GetAttributeContainerNextSequenceNumber
      (_attribute_container_sequence_numbers self)
      (CONTAINER_TYPE container) in
  let self := set_sequence_numbers self sequence_numbers in
  let i := SQLTableIdentifier (CONTAINER_TYPE container) next_sequence_number in
  let container := SetIdentifier container i in
  let* container := _UpdateAttributeContainerBeforeSerialize container in
  let* '(column_names, values) := new_record self container in
  let* db := cursor self in
  let* values := bind_values values in
  let* db :=
    except_OperationalError
      (insert db (CONTAINER_TYPE container) column_names values)
      "Unable to query storage file" in
  let self := set_database self db in
  if py_eq_str (storage_type self) definitions.STORAGE_TYPE_SESSION
     && String.eqb (CONTAINER_TYPE container) _CONTAINER_TYPE_EVENT_SOURCE
  then Ok (_CacheAttributeContainerByIndex self container
             (next_sequence_number - 1), container)
  else Ok (self, container).

(** Modelled from the spec: [BaseStore.AddAttributeContainer] and
    [BaseStore.UpdateAttributeContainer], which are not part of the sources
    at hand: a write fails when the store is not writable, and otherwise
    writes a new, or an existing, attribute container. *)
Definition AddAttributeContainer (self : SQLiteStorageFile)
    (container : AttributeContainer)
  : Result (SQLiteStorageFile * AttributeContainer) :=
  let* _ := _RaiseIfNotWritable self in
  _WriteNewAttributeContainer self container.

Definition UpdateAttributeContainer (self : SQLiteStorageFile)
    (container : AttributeContainer)
  : Result (SQLiteStorageFile * AttributeContainer) :=
  let* _ := _RaiseIfNotWritable self in
  _WriteExistingAttributeContainer self container.

(** For the statements about the outbound record. *)

(** [_CONTAINER_SCHEMA_IDENTIFIER_MAPPINGS.get(container_type, None)]. *)
Definition identifier_mappings_of (container_type : string)
  : list (string * string * string) :=
  default []
    (OrderedDict.get _CONTAINER_SCHEMA_IDENTIFIER_MAPPINGS container_type).

(** The fields of a serialized container that is the value of a column. *)
Definition serialized_fields (value : pyvalue + sqlvalue)
  : list (string * pyvalue) :=
  match value with
  | inr (JSON (SerializedContainer _ fields))
  | inr (BLOB (SerializedContainer _ fields)) => fields
  | _ => []
  end.

(** The names that occur in an outbound record: its columns, and the fields
    of the container that it holds in serialized form. *)
Definition outbound_names (record : outbound_record) : list string :=
  (record.1 ++ (mjoin (serialized_fields <$> record.2)).*1)%list.

(** The outbound record gives the value to the name, as the value of a
    column or as a field of the serialized container. *)
Definition outbound_value (record : outbound_record) (name : string)
    (value : pyvalue) : Prop :=
  (name, inl value) ∈ zip record.1 record.2 ∨
  (name, value) ∈ mjoin (serialized_fields <$> record.2).

(** Two store objects that differ in their caches at most. *)
Definition same_except_cache (a b : SQLiteStorageFile) : Prop :=
  _connection a = _connection b ∧
  _is_open a = _is_open b ∧
  _read_only a = _read_only b ∧
  _use_schema a = _use_schema b ∧
  compression_format a = compression_format b ∧
  format_version a = format_version b ∧
  serialization_format a = serialization_format b ∧
  storage_type a = storage_type b ∧
  _attribute_container_sequence_numbers a
    = _attribute_container_sequence_numbers b ∧
  _last_session a = _last_session b.

(** The identifier that [_WriteNewAttributeContainer] gives to a container. *)
Definition next_identifier (self : SQLiteStorageFile)
    (container : AttributeContainer) : identifier :=
  SQLTableIdentifier (CONTAINER_TYPE container)
    (_GetAttributeContainerNextSequenceNumber
       (_attribute_container_sequence_numbers self)
       (CONTAINER_TYPE container)).1.

(** The value of a column of the schema, for a data type other than bool. *)
Definition schema_value (c : AttributeContainer) (item : string * string)
  : pyvalue + sqlvalue :=
  match getattr c item.1 with
  | PyNone => inl PyNone
  | v => if has_sqlite_type item.2 then inl v else inr (WriteSerialized v)
  end.

Section public_methods.
Context {container_types : ContainerTypes}.

Definition Close (files : gmap string (gmap string table))
    (self : SQLiteStorageFile)
  : Result (gmap string (gmap string table) * SQLiteStorageFile) :=
  if negb (_is_open self) then Raise (IOError "Storage file already closed.")
  else
    let files :=
      match _connection self with
      | Some c => commit files c
      | None => files
      end in
    Ok (files,
        {| _attribute_container_cache := _attribute_container_cache self;
           _connection := None;
           _is_open := false;
           _read_only := _read_only self;
           _use_schema := _use_schema self;
           compression_format := compression_format self;
           format_version := format_version self;
           serialization_format := serialization_format self;
           storage_type := storage_type self;
           _attribute_container_sequence_numbers :=
             _attribute_container_sequence_numbers self;
           _last_session := _last_session self |}).

(** [sorted(schema.keys())] if the schema is used, [_data] otherwise. *)
Definition selected_column_names (self : SQLiteStorageFile)
    (container_type : string) : list string :=
  let schema := schema_of container_type in
  if _use_schema self && nonempty schema then sorted_keys schema
  else ["_data"].

Definition GetAttributeContainerByIndex (self : SQLiteStorageFile)
    (container_type : string) (index : Z)
  : Result (SQLiteStorageFile * option AttributeContainer) :=
  match _GetCachedAttributeContainer self container_type index with
  | (Some container, self) => Ok (self, Some container)
  | (None, self) =>
      let column_names := selected_column_names self container_type in
      let row_number := index + 1 in
      let* db := cursor self in
      let* selected :=
        except_OperationalError
          (select db container_type column_names
             [("rowid", Equal, row_number)] None)
          "Unable to query storage file" in
      match selected with
      | [] => Ok (self, None)
      | row :: _ =>
          let* container :=
            _CreatetAttributeContainerFromRow self container_type
              column_names row in
          let i := SQLTableIdentifier container_type row_number in
          let container := SetIdentifier container i in
          let* container :=
            _UpdateAttributeContainerAfterDeserialize container in
          Ok (_CacheAttributeContainerByIndex self container index,
              Some container)
      end
  end.

Definition GetAttributeContainerByIdentifier (self : SQLiteStorageFile)
    (container_type : string) (i : option identifier)
  : Result (SQLiteStorageFile * option AttributeContainer) :=
  match i with
  | Some (SQLTableIdentifier name n) =>
      GetAttributeContainerByIndex self container_type (n - 1)
  | _ => Raise (IOError "Unsupported attribute container identifier type")
  end.

Definition GetAttributeContainers (self : SQLiteStorageFile)
    (container_type : string) : Result (list AttributeContainer) :=
  _GetAttributeContainersWithFilter self container_type
    (selected_column_names self container_type) [] None.

Definition GetEventTagByEventIdentifier (self : SQLiteStorageFile)
    (event_identifier : identifier) : Result (option AttributeContainer) :=
  let schema := schema_of _CONTAINER_TYPE_EVENT_TAG in
  if negb (_use_schema self) || negb (nonempty schema) then Ok None
  else
    let column_names := sorted_keys schema in
    let filter_expression :=
      [("_event_row_identifier", Equal, sequence_number event_identifier)] in
    let* existing_event_tags :=
      _GetAttributeContainersWithFilter self _CONTAINER_TYPE_EVENT_TAG
        column_names filter_expression None in
    match existing_event_tags with
    | [event_tag] => Ok (Some event_tag)
    | _ => Ok None
    end.

Definition GetNumberOfAttributeContainers (self : SQLiteStorageFile)
    (container_type : string) : Result Z :=
  if negb (bool_decide (container_type ∈ _CONTAINER_TYPES))
  then Raise (ValueError "Attribute container type is not supported")
  else
    let* has := _HasTable self container_type in
    if negb has then Ok 0
    else
      let* db := cursor self in
      let* maximum :=
        except_OperationalError (select_max_rowid db container_type)
          "Unable to query storage file" in
      match maximum with
      | INTEGER n => Ok n
      | _ => Ok 0
      end.

(** [if time_range.start_timestamp:], for an end point that is an integer
    or [None]. *)
Definition end_point_given (end_point : option Z) : option Z :=
  match end_point with
  | Some z => if z =? 0 then None else Some z
  | None => None
  end.

(** The filter expression of [GetSortedEvents]. *)
Definition time_range_filter (filter_column_name : string)
    (time_range : option TimeRange) : list condition :=
  match time_range with
  | None => []
  | Some time_range =>
      (match end_point_given (start_timestamp time_range) with
       | Some z => [(filter_column_name, GreaterEqual, z)]
       | None => []
       end ++
       match end_point_given (end_timestamp time_range) with
       | Some z => [(filter_column_name, LessEqual, z)]
       | None => []
       end)%list
  end.

Definition GetSortedEvents (self : SQLiteStorageFile)
    (time_range : option TimeRange) : Result (list AttributeContainer) :=
  let schema := schema_of _CONTAINER_TYPE_EVENT in
  let '(filter_column_name, column_names) :=
    if _use_schema self && nonempty schema
    then ("timestamp", sorted_keys schema)
    else ("_timestamp", ["_data"]) in
  let filter_expression := time_range_filter filter_column_name time_range in
  _GetAttributeContainersWithFilter self _CONTAINER_TYPE_EVENT column_names
    filter_expression (Some filter_column_name).

Definition HasAttributeContainers (self : SQLiteStorageFile)
    (container_type : string) : Result bool :=
  let* count := GetNumberOfAttributeContainers self container_type in
  Ok (0 <? count).

(** The loop of [Open] that creates the tables of the container types. *)
Fixpoint create_tables (self : SQLiteStorageFile)
    (container_types : list string) : Result SQLiteStorageFile :=
  match container_types with
  | [] => Ok self
  | container_type :: container_types =>
      if py_eq_str (storage_type self) definitions.STORAGE_TYPE_SESSION
         && bool_decide (container_type ∈ _TASK_STORE_ONLY_CONTAINER_TYPES)
      then create_tables self container_types
      else if py_eq_str (storage_type self) definitions.STORAGE_TYPE_TASK
              && bool_decide
                   (container_type ∈ _SESSION_STORE_ONLY_CONTAINER_TYPES)
      then create_tables self container_types
      else
        let* has := _HasTable self container_type in
        let* self :=
          if negb has then _CreateAttributeContainerTable self container_type
          else Ok self in
        create_tables self container_types
  end.

(** The loop of [Open] that sets the next sequence numbers. *)
Fixpoint set_sequence_numbers_from_file (self : SQLiteStorageFile)
    (container_types : list string) : Result SQLiteStorageFile :=
  match container_types with
  | [] => Ok self
  | container_type :: container_types =>
      let* next_sequence_number :=
        GetNumberOfAttributeContainers self container_type in
      set_sequence_numbers_from_file
        (set_sequence_numbers self
           (_SetAttributeContainerNextSequenceNumber
              (_attribute_container_sequence_numbers self) container_type
              next_sequence_number))
        container_types
  end.

Definition Open (files : gmap string (gmap string table))
    (self : SQLiteStorageFile) (path : string) (read_only : bool)
  : Result (gmap string (gmap string table) * SQLiteStorageFile) :=
  if _is_open self then Raise (IOError "Storage file already opened.")
  else if String.eqb path "" then Raise (ValueError "Missing path.")
  else
    let* connection := connect files path read_only in
    let self :=
      {| _attribute_container_cache := _attribute_container_cache self;
         _connection := Some connection;
         _is_open := true;
         _read_only := read_only;
         _use_schema := _use_schema self;
         compression_format := compression_format self;
         format_version := format_version self;
         serialization_format := serialization_format self;
         storage_type := storage_type self;
         _attribute_container_sequence_numbers :=
           _attribute_container_sequence_numbers self;
         _last_session := _last_session self |} in
    let* '(files, self) :=
      if read_only
      then
        let* self := _ReadAndCheckStorageMetadata self true in
        Ok (files, self)
      else
        let* has_metadata := _HasTable self "metadata" in
        let* self :=
          if negb has_metadata then _WriteMetadata self
          else
            let* self := _ReadAndCheckStorageMetadata self false in
            _UpdateStorageMetadataFormatVersion self in
        let container_types :=
          (_CONTAINER_TYPES ++
           (if _use_schema self then _CONTAINER_SCHEMAS.*1 else []))%list in
        let* self := create_tables self container_types in
        let* db := cursor self in
        Ok (<[path := db]> files, self) in
    let* last_session_start :=
      GetNumberOfAttributeContainers self _CONTAINER_TYPE_SESSION_START in
    let* last_session_completion :=
      GetNumberOfAttributeContainers self _CONTAINER_TYPE_SESSION_COMPLETION in
    let* self :=
      set_sequence_numbers_from_file self _REFERENCED_CONTAINER_TYPES in
    Ok (files,
        {| _attribute_container_cache := _attribute_container_cache self;
           _connection := _connection self;
           _is_open := _is_open self;
           _read_only := _read_only self;
           _use_schema := _use_schema self;
           compression_format := compression_format self;
           format_version := format_version self;
           serialization_format := serialization_format self;
           storage_type := storage_type self;
           _attribute_container_sequence_numbers :=
             _attribute_container_sequence_numbers self;
           _last_session := last_session_completion |}).

End public_methods.

(** A store that is closed: it was never opened, or [Close] has closed it,
    and it has no connection and no cursor. *)
Definition closed (self : SQLiteStorageFile) : Prop :=
  _is_open self = false ∧ _connection self = None.

(** For the statements about event tags. *)

(** The rows of a table of event tags that refer to the event of the given
    row. *)
Definition tags_of_event (t : table) (n : Z) : list (gmap string sqlvalue) :=
  filter
    (λ row,
       satisfies (default NULL (row !! "_event_row_identifier")) Equal n = true)
    (rows t).

(** The labels of a row of event tags are absent or are what the serializer
    has written for a value. *)
Definition readable_labels (row : gmap string sqlvalue) : Prop :=
  match default NULL (row !! "labels") with
  | NULL | JSON (SerializedValue _) => True
  | _ => False
  end.

(** The store is connected to a database, of which every row of event tags
    has readable labels. *)
Definition event_tags_readable (self : SQLiteStorageFile) : Prop :=
  ∀ db t row,
    cursor self = Ok db → db !! _CONTAINER_TYPE_EVENT_TAG = Some t →
    row ∈ rows t → readable_labels row.

End SQLite.

(** ** The life of a store file *)

Module Sessions.
Import sqlite3 SQLite.

Section sessions.
Context {container_types : ContainerTypes}.

(** What is done to the store file at a path, by one store object at a time:
    a new store object takes the place of the last one once that is closed;
    the store object opens the file, adds containers and closes the file. *)
Inductive operation :=
| NewStore (storage_type : string)
| OpenStore (read_only : bool)
| Add (container : AttributeContainer)
| CloseStore.

(** The files, the store object, and the identifiers that the additions have
    assigned so far, as pairs of container type and sequence number. *)
Record state := {
  files : gmap string (gmap string table);
  self : SQLiteStorageFile;
  assigned : list (string * Z);
}.

Definition assigned_identifier (container : AttributeContainer)
  : list (string * Z) :=
  match GetIdentifier container with
  | Some (SQLTableIdentifier name n) => [(name, n)]
  | _ => []
  end.

(** An operation that returns; [None] for an operation that raises, and for
    a new store object while the last one is open. *)
Definition step (path : string) (st : state) (op : operation)
  : option state :=
  match op with
  | NewStore storage_type =>
      if _is_open (self st) then None
      else Some {| files := files st;
                   self := __init__ storage_type;
                   assigned := assigned st |}
  | OpenStore read_only =>
      match Open (files st) (self st) path read_only with
      | Ok (files', self') =>
          Some {| files := files'; self := self'; assigned := assigned st |}
      | Raise _ => None
      end
  | Add container =>
      match AddAttributeContainer (self st) container with
      | Ok (self', written) =>
          Some {| files := files st;
                  self := self';
                  assigned :=
                    (assigned st ++ assigned_identifier written)%list |}
      | Raise _ => None
      end
  | CloseStore =>
      match Close (files st) (self st) with
      | Ok (files', self') =>
          Some {| files := files'; self := self'; assigned := assigned st |}
      | Raise _ => None
      end
  end.

Fixpoint run (path : string) (st : state) (ops : list operation)
  : option state :=
  match ops with
  | [] => Some st
  | op :: ops =>
      match step path st op with
      | Some st => run path st ops
      | None => None
      end
  end.

(** A new store object, and no file at the path yet. *)
Definition initial (files : gmap string (gmap string table))
    (storage_type : string) : state :=
  {| files := files; self := __init__ storage_type; assigned := [] |}.

(** The number of rows of the table of a container type. *)
Definition row_count (db : gmap string table) (container_type : string) : Z :=
  match db !! container_type with
  | Some t => Z.of_nat (length (rows t))
  | None => 0
  end.

(** The identifiers that were assigned to containers of the referenced
    container types. *)
Definition referenced (assigned : list (string * Z)) : list (string * Z) :=
  filter (λ x, x.1 ∈ _REFERENCED_CONTAINER_TYPES) assigned.

End sessions.

End Sessions.

(** ** Inputs of the examples *)

Module Examples.

(** Container types for the examples: the types that the sources at hand
    and the spec name. *)
Definition example_container_types : ContainerTypes :=
  {| _CONTAINER_TYPES :=
       ["analysis_report"; "analysis_warning"; "event"; "event_data";
        "event_data_stream"; "event_source"; "event_tag";
        "extraction_warning"; "preprocessing_warning"; "recovery_warning";
        "session_completion"; "session_configuration"; "session_start";
        "system_configuration"; "task_completion"; "task_start";
        "windows_eventlog_provider"];
     _SESSION_STORE_ONLY_CONTAINER_TYPES :=
       ["session_completion"; "session_configuration"; "session_start";
        "system_configuration"];
     _TASK_STORE_ONLY_CONTAINER_TYPES := ["task_completion"; "task_start"] |}.

(** A new attribute container object of the given type and attributes. *)
Definition container (container_type : string)
    (attributes : list (string * pyvalue)) : AttributeContainer :=
  {| CONTAINER_TYPE := container_type;
     _identifier := None;
     attributes := list_to_map attributes |}.

Definition event (event_timestamp : Z) : AttributeContainer :=
  container "event" [("timestamp", PyInt event_timestamp)].

(** The in-memory store, opened. *)
Definition open_world : Fake.World :=
  {| Fake.objects := [];
     Fake.store := Fake.set_is_open (Fake.__init__ "session") true |}.

(** The world of a result, for a run that does not raise. *)
Definition world_of (r : Result Fake.World) : Fake.World :=
  match r with
  | Ok w => w
  | Raise _ => open_world
  end.

(** The caller makes an event source, adds it to the store and updates it. *)
Definition caller_object : nat := 0%nat.

Definition world_after_update : Fake.World :=
  let '(w, reference) :=
    Fake.new_object open_world
      (container "event_source" [("data_type", PyStr "os:file")]) in
  world_of
    (let* w :=
       Fake.AddAttributeContainer w reference in
     Fake.UpdateAttributeContainer w reference).

(** An event for the SQLite store: it refers to its event data. *)
Definition stored_event (event_timestamp : Z) : AttributeContainer :=
  container "event"
    [("timestamp", PyInt event_timestamp);
     ("_event_data_identifier",
      PyIdentifier (SQLTableIdentifier "event_data" 1))].

(** A new SQLite store at [/tmp/s.plaso], opened for writing. *)
Definition new_file : Result SQLite.SQLiteStorageFile :=
  let* '(_, self) :=
    SQLite.Open (container_types := example_container_types) ∅
      (SQLite.__init__ "session") "/tmp/s.plaso" false in
  Ok self.

Fixpoint add_all (self : SQLite.SQLiteStorageFile)
    (containers : list AttributeContainer) : Result SQLite.SQLiteStorageFile :=
  match containers with
  | [] => Ok self
  | container :: containers =>
      let* '(self, _) := SQLite.AddAttributeContainer self container in
      add_all self containers
  end.

(** The timestamps of the events that [GetSortedEvents] yields, for a new
    store to which events of the given timestamps have been added. *)
Definition sorted_timestamps (timestamps : list Z)
    (time_range : option TimeRange) : Result (list pyvalue) :=
  let* self := new_file in
  let* self := add_all self (stored_event <$> timestamps) in
  let* events := SQLite.GetSortedEvents self time_range in
  Ok ((λ event, getattr event "timestamp") <$> events).

(** The same for the in-memory store. *)
Fixpoint fake_add_all (w : Fake.World) (containers : list AttributeContainer)
  : Result Fake.World :=
  match containers with
  | [] => Ok w
  | container :: containers =>
      let '(w, reference) := Fake.new_object w container in
      let* w := Fake.AddAttributeContainer w reference in
      fake_add_all w containers
  end.

(** The in-memory store after events of timestamps 100, 100, 50 and 200
    have been added. *)
Definition world_of_four_events : Fake.World :=
  world_of (fake_add_all open_world (event <$> [100; 100; 50; 200])).

Definition fake_sorted_timestamps (timestamps : list Z)
    (time_range : option TimeRange) : Result (list (option pyvalue)) :=
  let* w := fake_add_all open_world (event <$> timestamps) in
  let* events := Fake.GetSortedEvents w time_range in
  Ok ((λ reference,
         (λ event, getattr event "timestamp") <$> Fake.objects w !! reference)
        <$> events).

(** An event tag with a label, for the event of the given identifier. *)
Definition event_tag (event_identifier : identifier) (label : string)
  : AttributeContainer :=
  container "event_tag"
    [("labels", PyList [label]);
     ("_event_identifier", PyIdentifier event_identifier)].

(** The store of a result, for a run that does not raise. *)
Definition store_of (r : Result SQLite.SQLiteStorageFile)
  : SQLite.SQLiteStorageFile :=
  match r with
  | Ok self => self
  | Raise _ => SQLite.__init__ "session"
  end.

(** A new SQLite store to which an event has been added: the event of the
    identifier [SQLTableIdentifier "event" 1]. *)
Definition store_with_event : SQLite.SQLiteStorageFile :=
  store_of (let* self := new_file in add_all self [stored_event 10]).

(** The database to which a store is connected, and a table of it. *)
Definition database_of (self : SQLite.SQLiteStorageFile)
  : gmap string sqlite3.table :=
  match SQLite.cursor self with
  | Ok db => db
  | Raise _ => ∅
  end.

Definition table_of (self : SQLite.SQLiteStorageFile) (name : string)
  : sqlite3.table :=
  default {| sqlite3.column_definitions := []; sqlite3.rows := [] |}
    (database_of self !! name).

(** The event of the first row of the table of events, with another
    timestamp. *)
Definition existing_event : AttributeContainer :=
  SetIdentifier (stored_event 30) (SQLTableIdentifier "event" 1).

(** What the rows of a table of events hold: the serialized reference, the
    runtime reference and the timestamp. *)
Definition event_columns (t : sqlite3.table)
  : list (option sqlite3.sqlvalue * option sqlite3.sqlvalue
          * option sqlite3.sqlvalue) :=
  (λ row : gmap string sqlite3.sqlvalue,
     (row !! "_event_data_row_identifier", row !! "_event_data_identifier",
      row !! "timestamp")) <$> sqlite3.rows t.

(** The store and the container after an addition that does not raise. *)
Definition added (self : SQLite.SQLiteStorageFile)
    (container : AttributeContainer)
  : SQLite.SQLiteStorageFile * AttributeContainer :=
  match SQLite.AddAttributeContainer self container with
  | Ok r => r
  | Raise _ => (self, container)
  end.

Definition store_with_one_tag : SQLite.SQLiteStorageFile :=
  (added store_with_event
     (event_tag (SQLTableIdentifier "event" 1) "suspicious")).1.

Definition store_with_two_tags : SQLite.SQLiteStorageFile :=
  (added store_with_one_tag
     (event_tag (SQLTableIdentifier "event" 1) "benign")).1.

(** The in-memory store to which an event has been added: the event of the
    identifier [FakeIdentifier 1]. The caller then makes two event tags for
    it, the objects 2 and 3, and adds them. *)
Definition world_with_event : Fake.World :=
  world_of (fake_add_all open_world [event 10]).

Definition world_with_tag_objects : Fake.World :=
  (Fake.new_object
     (Fake.new_object world_with_event
        (event_tag (FakeIdentifier 1) "suspicious")).1
     (event_tag (FakeIdentifier 1) "benign")).1.

Definition world_with_one_tag : Fake.World :=
  world_of (Fake.AddAttributeContainer world_with_tag_objects 2).

Definition world_with_two_tags : Fake.World :=
  world_of (Fake.AddAttributeContainer world_with_one_tag 3).

(** The in-memory store after an event has been added and the store has
    been closed. *)
Definition closed_world : Fake.World :=
  {| Fake.objects := Fake.objects world_with_event;
     Fake.store :=
       match Fake.Close (Fake.store world_with_event) with
       | Ok closed => closed
       | Raise _ => Fake.store world_with_event
       end |}.

(** The in-memory store that [Open] was asked to open read-only, and an
    event of the caller. *)
Definition read_only_world : Fake.World :=
  {| Fake.objects := [event 10];
     Fake.store :=
       match Fake.Open (Fake.__init__ "session") true with
       | Ok opened => opened
       | Raise _ => Fake.__init__ "session"
       end |}.

(** The files and the store after a run that does not raise. *)
Definition files_and_store_of
    (r : Result (gmap string (gmap string sqlite3.table)
                 * SQLite.SQLiteStorageFile))
  : gmap string (gmap string sqlite3.table) * SQLite.SQLiteStorageFile :=
  match r with
  | Ok x => x
  | Raise _ => (∅, SQLite.__init__ "session")
  end.

(** A new SQLite store to which an event source has been added, closed. *)
Definition closed_store_with_event_source : SQLite.SQLiteStorageFile :=
  (files_and_store_of
     (let* self := new_file in
      let* self :=
        add_all self
          [container "event_source" [("data_type", PyStr "os:file")]] in
      SQLite.Close ∅ self)).2.

(** A file of the format version 20190309, which has no schema. *)
Definition metadata_row (key value : string) : gmap string sqlite3.sqlvalue :=
  list_to_map [("key", sqlite3.TEXT key); ("value", sqlite3.TEXT value)].

Definition old_files : gmap string (gmap string sqlite3.table) :=
  {[ "/tmp/old.plaso" :=
       {[ "metadata" :=
            {| sqlite3.column_definitions :=
                 [("key", "TEXT"); ("value", "TEXT")];
               sqlite3.rows :=
                 [metadata_row "format_version" "20190309";
                  metadata_row "compression_format" "zlib";
                  metadata_row "serialization_format" "json";
                  metadata_row "storage_type" "session"] |} ]} ]}.

(** A store that has opened the old file for reading, open. *)
Definition read_only_old_store : SQLite.SQLiteStorageFile :=
  (files_and_store_of
     (SQLite.Open (container_types := example_container_types) old_files
        (SQLite.__init__ "session") "/tmp/old.plaso" true)).2.

(** A store that has opened the old file for reading, closed. *)
Definition closed_old_store : SQLite.SQLiteStorageFile :=
  (files_and_store_of
     (let* '(files, self) :=
        SQLite.Open (container_types := example_container_types) old_files
          (SQLite.__init__ "session") "/tmp/old.plaso" true in
      SQLite.Close files self)).2.

End Examples.
(** ** Properties of the metadata check *)

Module MetadataFacts.
Import Metadata.

Lemma truthy_false_not_parsed v :
  truthy v = false → parse_format_version v = None.
Proof.
  destruct v as [| | |s| | |]; simpl; try done.
  destruct s; [done | discriminate].
Qed.

Lemma py_in_formats v :
  py_in v definitions.COMPRESSION_FORMATS = true ↔
  v = PyStr "none" ∨ v = PyStr "zlib".
Proof.
  destruct v; simpl; try (split; [done | intros [|]; done]).
  rewrite bool_decide_eq_true. unfold definitions.COMPRESSION_FORMATS.
  rewrite !elem_of_cons, elem_of_nil.
  unfold definitions.COMPRESSION_FORMAT_NONE,
    definitions.COMPRESSION_FORMAT_ZLIB.
  intuition (subst; auto; congruence).
Qed.

Lemma py_in_storage_types v :
  py_in v definitions.STORAGE_TYPES = true ↔
  v = PyStr "session" ∨ v = PyStr "task".
Proof.
  destruct v; simpl; try (split; [done | intros [|]; done]).
  rewrite bool_decide_eq_true. unfold definitions.STORAGE_TYPES.
  rewrite !elem_of_cons, elem_of_nil.
  unfold definitions.STORAGE_TYPE_SESSION, definitions.STORAGE_TYPE_TASK.
  intuition (subst; auto; congruence).
Qed.

Lemma py_eq_str_json v :
  py_eq_str v definitions.SERIALIZER_FORMAT_JSON = true ↔ v = PyStr "json".
Proof.
  destruct v; simpl; try (split; done).
  rewrite String.eqb_eq. unfold definitions.SERIALIZER_FORMAT_JSON.
  intuition (subst; auto; congruence).
Qed.

Lemma dict_get_insert_ne (d : gmap string pyvalue) k k' v :
  k ≠ k' → dict_get (<[k := v]> d) k' = dict_get d k'.
Proof. intros. unfold dict_get. by rewrite lookup_insert_ne. Qed.

Lemma version_bounds_ltb n (check_readable_only : bool) :
  (negb check_readable_only && (n <? _APPEND_COMPATIBLE_FORMAT_VERSION)
   || (n <? _READ_COMPATIBLE_FORMAT_VERSION)
   || (_FORMAT_VERSION <? n)) = false ↔
  (if check_readable_only then _READ_COMPATIBLE_FORMAT_VERSION
   else _APPEND_COMPATIBLE_FORMAT_VERSION) ≤ n ≤ _FORMAT_VERSION.
Proof.
  unfold _APPEND_COMPATIBLE_FORMAT_VERSION, _READ_COMPATIBLE_FORMAT_VERSION,
    _FORMAT_VERSION.
  rewrite !orb_false_iff, andb_false_iff, !Z.ltb_ge.
  destruct check_readable_only; simpl; intuition (try discriminate; lia).
Qed.

(** The outcome of the check, case by case. *)
Lemma CheckStorageMetadata_cases metadata_values check_readable_only :
  (metadata_supported metadata_values check_readable_only ∧
   ∃ n, parse_format_version (dict_get metadata_values "format_version")
          = Some n ∧
        _CheckStorageMetadata metadata_values check_readable_only
          = Ok (<["format_version" := PyInt n]> metadata_values)) ∨
  (¬ metadata_supported metadata_values check_readable_only ∧
   is_IOError (_CheckStorageMetadata metadata_values check_readable_only)).
Proof.
  unfold _CheckStorageMetadata, metadata_supported, version_supported.
  destruct (truthy (dict_get metadata_values "format_version")) eqn:Ht; simpl.
  2:{ right. apply truthy_false_not_parsed in Ht. rewrite Ht.
      split; [|by eexists]. intros [(n & ? & _) _]. done. }
  destruct (parse_format_version _) as [n|] eqn:Hp.
  2:{ right. split; [|by eexists]. intros [(n & ? & _) _]. done. }
  pose proof (version_bounds_ltb n check_readable_only) as Hb.
  destruct (negb check_readable_only &&
            (n <? _APPEND_COMPATIBLE_FORMAT_VERSION)) eqn:H1.
  { right. split; [|by eexists]. intros [(n' & [= <-] & Hn) _].
    apply Hb in Hn. done. }
  destruct (n <? _READ_COMPATIBLE_FORMAT_VERSION) eqn:H2.
  { right. split; [|by eexists]. intros [(n' & [= <-] & Hn) _].
    apply Hb in Hn. done. }
  destruct (_FORMAT_VERSION <? n) eqn:H3.
  { right. split; [|by eexists]. intros [(n' & [= <-] & Hn) _].
    apply Hb in Hn. done. }
  rewrite !dict_get_insert_ne by done.
  destruct (py_in (dict_get metadata_values "compression_format") _) eqn:Hc;
    simpl.
  2:{ right. split; [|by eexists]. intros (_ & Hc' & _).
      apply py_in_formats in Hc'. congruence. }
  destruct (py_eq_str (dict_get metadata_values "serialization_format") _)
    eqn:Hs; simpl.
  2:{ right. split; [|by eexists]. intros (_ & _ & Hs' & _).
      apply py_eq_str_json in Hs'. congruence. }
  destruct (py_in (dict_get metadata_values "storage_type") _) eqn:Hst; simpl.
  2:{ right. split; [|by eexists]. intros (_ & _ & _ & Hst').
      apply py_in_storage_types in Hst'. congruence. }
  left. split; [|by eauto].
  split; [exists n; split; [done | by apply Hb] |].
  by rewrite <- py_in_formats, <- py_eq_str_json, <- py_in_storage_types.
Qed.

(** C7: the metadata check raises [IOError] (the error of an unsupported
    format) exactly when the stored format version is not the decimal text of
    an integer between the read compatible version 20190309 (for a check that
    is for reading only) or the append compatible version 20190309
    (otherwise) and the current version 20210621, or the compression format
    is neither none nor zlib, or the serialization format is not json, or the
    storage type is neither session nor task. Otherwise the check returns;
    and a version below 20190309 or above 20210621 is rejected in both
    modes. *)
Theorem CheckStorageMetadata_unsupported_format
    (metadata_values : gmap string pyvalue) (check_readable_only : bool) :
  (is_IOError (_CheckStorageMetadata metadata_values check_readable_only) ↔
   ¬ metadata_supported metadata_values check_readable_only) ∧
  (metadata_supported metadata_values check_readable_only ↔
   ∃ checked, _CheckStorageMetadata metadata_values check_readable_only
              = Ok checked) ∧
  (∀ n, parse_format_version (dict_get metadata_values "format_version")
          = Some n →
        n < 20190309 ∨ 20210621 < n →
        is_IOError (_CheckStorageMetadata metadata_values check_readable_only)).
Proof.
  destruct (CheckStorageMetadata_cases metadata_values check_readable_only)
    as [[Hs (n & Hp & Hok)] | [Hn Herr]].
  - split; [|split].
    + rewrite Hok. split; [intros [? ?]; done | done].
    + split; [by eauto | done].
    + intros n' Hp' Hr. destruct Hs as [(n'' & Hp'' & Hb) _].
      rewrite Hp' in Hp''. injection Hp'' as <-.
      unfold _READ_COMPATIBLE_FORMAT_VERSION,
        _APPEND_COMPATIBLE_FORMAT_VERSION, _FORMAT_VERSION in Hb.
      destruct check_readable_only; lia.
  - split; [|split]; [done | | done].
    split; [done |]. intros [c Hc]. destruct Herr as [m Hm]. congruence.
Qed.

Lemma CheckStorageMetadata_unsupported_format_witness :
  (∃ checked, _CheckStorageMetadata current_metadata true = Ok checked) ∧
  is_IOError (_CheckStorageMetadata old_metadata true) ∧
  is_IOError (_CheckStorageMetadata old_metadata false).
Proof.
  split; [|split].
  - by eexists.
  - apply (CheckStorageMetadata_unsupported_format old_metadata true)
      with (n := 20170707); [reflexivity | lia].
  - apply (CheckStorageMetadata_unsupported_format old_metadata false)
      with (n := 20170707); [reflexivity | lia].
Defined.

End MetadataFacts.

(** ** The event heap drains in order *)

Module EventHeapFacts.
Import EventHeap.

Lemma key_le_refl a : key_le a a = true.
Proof.
  unfold key_le. rewrite Z.eqb_refl, Nat.leb_refl. by rewrite orb_true_r.
Qed.

Lemma key_le_spec a b :
  key_le a b = true ↔ a.1 < b.1 ∨ (a.1 = b.1 ∧ (a.2 ≤ b.2)%nat).
Proof.
  unfold key_le.
  rewrite orb_true_iff, andb_true_iff, Z.ltb_lt, Z.eqb_eq, Nat.leb_le. done.
Qed.

Lemma key_le_trans a b c :
  key_le a b = true → key_le b c = true → key_le a c = true.
Proof. rewrite !key_le_spec. lia. Qed.

Lemma key_le_total a b : key_le a b = false → key_le b a = true.
Proof.
  intros H. apply key_le_spec.
  destruct (key_le a b) eqn:E; [done|].
  assert (¬ (a.1 < b.1 ∨ (a.1 = b.1 ∧ (a.2 ≤ b.2)%nat))) as Hn
    by (rewrite <- key_le_spec; congruence).
  lia.
Qed.

Lemma entries_make_node k e a b :
  entries (make_node k e a b) ≡ₚ (k, e) :: entries a ++ entries b.
Proof.
  unfold make_node. destruct (rank b <=? rank a)%nat; simpl; [done|].
  apply Permutation_skip, Permutation_app_comm.
Qed.

Lemma entries_merge h1 h2 :
  entries (merge h1 h2) ≡ₚ entries h1 ++ entries h2.
Proof.
  revert h2. induction h1 as [|r1 k1 e1 l1 IHl1 rt1 IHr1]; intros h2.
  { by destruct h2. }
  induction h2 as [|r2 k2 e2 l2 IHl2 rt2 IHr2].
  { simpl. by rewrite app_nil_r. }
  simpl. destruct (key_le k1 k2).
  - rewrite entries_make_node, IHr1. simpl.
    apply Permutation_skip. by rewrite <- !app_assoc.
  - rewrite entries_make_node.
    change ((fix merge_h1 (h2 : heap) : heap :=
               match h2 with
               | Leaf => Node r1 k1 e1 l1 rt1
               | Node _ k2 e2 l2 r2 =>
                   if key_le k1 k2
                   then make_node k1 e1 l1 (merge rt1 h2)
                   else make_node k2 e2 l2 (merge_h1 r2)
               end) rt2) with (merge (Node r1 k1 e1 l1 rt1) rt2).
    rewrite IHr2. simpl.
    rewrite <- !Permutation_middle.
    etrans; [apply perm_swap|]. do 2 apply Permutation_skip.
    rewrite (Permutation_app_comm (entries l2)
               ((entries l1 ++ entries rt1) ++ entries rt2)).
    rewrite <- !app_assoc. do 2 apply Permutation_app_head.
    apply Permutation_app_comm.
Qed.

Lemma size_entries h : size h = length (entries h).
Proof.
  induction h; simpl; [done|]. rewrite length_app. lia.
Qed.

Lemma size_merge h1 h2 : size (merge h1 h2) = (size h1 + size h2)%nat.
Proof.
  rewrite !size_entries. by rewrite entries_merge, length_app.
Qed.

Lemma heap_ordered_make_node k e a b :
  Forall (λ x, key_le k x.1 = true) (entries a ++ entries b) →
  heap_ordered a → heap_ordered b → heap_ordered (make_node k e a b).
Proof.
  intros Hk Ha Hb. unfold make_node.
  destruct (rank b <=? rank a)%nat; simpl; [done|].
  split; [|done]. by rewrite Permutation_app_comm.
Qed.

Lemma heap_ordered_merge h1 h2 :
  heap_ordered h1 → heap_ordered h2 → heap_ordered (merge h1 h2).
Proof.
  revert h2. induction h1 as [|r1 k1 e1 l1 IHl1 rt1 IHr1]; intros h2.
  { by destruct h2. }
  induction h2 as [|r2 k2 e2 l2 IHl2 rt2 IHr2]; [done|].
  intros H1 H2. simpl. destruct (key_le k1 k2) eqn:Hle.
  - destruct H1 as (Hk1 & Hl1 & Hr1).
    apply heap_ordered_make_node; [|done|by apply IHr1].
    rewrite entries_merge. simpl.
    apply Forall_app in Hk1 as [Hk1l Hk1r].
    destruct H2 as (Hk2 & _ & _).
    repeat (apply Forall_app; split); try done.
    constructor; [done|].
    eapply Forall_impl; [exact Hk2|]. simpl.
    intros x Hx. by eapply key_le_trans.
  - change ((fix merge_h1 (h2 : heap) : heap :=
               match h2 with
               | Leaf => Node r1 k1 e1 l1 rt1
               | Node _ k2 e2 l2 r2 =>
                   if key_le k1 k2
                   then make_node k1 e1 l1 (merge rt1 h2)
                   else make_node k2 e2 l2 (merge_h1 r2)
               end) rt2) with (merge (Node r1 k1 e1 l1 rt1) rt2).
    pose proof H2 as (Hk2 & Hl2 & Hr2).
    apply heap_ordered_make_node; [|done|by apply IHr2].
    rewrite entries_merge. simpl.
    apply Forall_app in Hk2 as [Hk2l Hk2r].
    apply key_le_total in Hle.
    destruct H1 as (Hk1 & _ & _).
    apply Forall_app; split; [done|].
    constructor; [done|].
    apply Forall_app; split; [|done].
    eapply Forall_impl; [exact Hk1|]. simpl.
    intros x Hx. by eapply key_le_trans.
Qed.

Lemma pop_events_drain fuel h : pop_events fuel h = (drain fuel h).*2.
Proof.
  revert h. induction fuel as [|fuel IH]; intros h; [done|].
  destruct h; simpl; [done|]. by rewrite IH.
Qed.

Lemma drain_Permutation fuel h :
  (size h ≤ fuel)%nat → drain fuel h ≡ₚ entries h.
Proof.
  revert h. induction fuel as [|fuel IH]; intros h Hf.
  { destruct h; simpl in *; [done | lia]. }
  destruct h as [|r k e a b]; simpl in *; [done|].
  apply Permutation_skip. rewrite IH, entries_merge; [done|].
  rewrite size_merge. lia.
Qed.

Lemma drain_sorted fuel h :
  (size h ≤ fuel)%nat → heap_ordered h →
  StronglySorted (λ x y, key_le x.1 y.1 = true) (drain fuel h).
Proof.
  revert h. induction fuel as [|fuel IH]; intros h Hf Ho.
  { constructor. }
  destruct h as [|r k e a b]; simpl in *; [constructor|].
  destruct Ho as (Hk & Ha & Hb).
  assert (size (merge a b) ≤ fuel)%nat by (rewrite size_merge; lia).
  constructor.
  - apply IH; [done|]. by apply heap_ordered_merge.
  - rewrite drain_Permutation, entries_merge by done. done.
Qed.

Lemma entries_PushEvent h t e i :
  entries (PushEvent h t e i) ≡ₚ ((t, i), e) :: entries h.
Proof. unfold PushEvent. by rewrite entries_merge. Qed.

Lemma heap_ordered_PushEvent h t e i :
  heap_ordered h → heap_ordered (PushEvent h t e i).
Proof.
  intros. apply heap_ordered_merge; [|done]. simpl. by repeat split.
Qed.

End EventHeapFacts.

(** ** The in-memory store: events in chronological order *)

Module FakeSortedEvents.
Import EventHeap EventHeapFacts Fake.

Section sorted_events.
Context {container_types : ContainerTypes}.

Lemma outside_time_range_spec time_range t :
  integer_end_points time_range →
  ∃ skip, outside_time_range time_range t = Ok skip ∧
          (skip = false ↔ in_time_range time_range t).
Proof.
  destruct time_range as [[start_ts end_ts]|]; simpl.
  2:{ intros _. by exists false. }
  intros [[s ->] [e ->]]. simpl.
  destruct (t <? s) eqn:Hs; simpl.
  - exists true. split; [done|]. split; [done|].
    intros (s' & e' & [= <-] & [= <-] & ?). apply Z.ltb_lt in Hs. lia.
  - exists (e <? t). split; [done|]. apply Z.ltb_ge in Hs.
    rewrite Z.ltb_ge. split.
    + intros. exists s, e. repeat split; [done | lia].
    + intros (s' & e' & [= <-] & [= <-] & ?). lia.
Qed.

Lemma push_events_selected w time_range index events timestamps h :
  Forall2 (has_timestamp w) events timestamps →
  integer_end_points time_range →
  ∃ h', push_events w time_range index events h = Ok h' ∧
        entries h' ≡ₚ selected time_range index events timestamps ++ entries h ∧
        (heap_ordered h → heap_ordered h').
Proof.
  intros Hts Htr. revert index h.
  induction Hts as [|event t events timestamps (e & He & Ht) _ IH];
    intros index h.
  { exists h. by repeat split. }
  simpl. unfold deref. rewrite He. simpl. rewrite Ht. simpl.
  destruct (outside_time_range_spec time_range t Htr) as (skip & -> & _).
  simpl. destruct skip.
  - apply IH.
  - destruct (IH (S index) (PushEvent h t event index))
      as (h' & -> & Hp & Ho).
    exists h'. split; [done|]. split.
    + rewrite Hp, entries_PushEvent. simpl. by rewrite Permutation_middle.
    + intros. by apply Ho, heap_ordered_PushEvent.
Qed.

Lemma elem_of_selected time_range index events timestamps t i event :
  integer_end_points time_range →
  length events = length timestamps →
  ((t, i), event) ∈ selected time_range index events timestamps ↔
  ∃ j, i = (index + j)%nat ∧ events !! j = Some event ∧
       timestamps !! j = Some t ∧ in_time_range time_range t.
Proof.
  intros Htr. revert index timestamps.
  induction events as [|ev events IH]; intros index [|t' timestamps] Hlen;
    simpl in *; try done.
  { rewrite elem_of_nil. split; [done|]. by intros (j & _ & ? & _). }
  injection Hlen as Hlen.
  destruct (outside_time_range_spec time_range t' Htr) as (skip & -> & Hskip).
  assert (((t, i), event) ∈ selected time_range (S index) events timestamps ↔
          ∃ j, i = (index + S j)%nat ∧ events !! j = Some event ∧
               timestamps !! j = Some t ∧ in_time_range time_range t) as Htail.
  { rewrite IH by done. by setoid_rewrite Nat.add_succ_r. }
  destruct skip.
  - rewrite Htail. split.
    + intros (j & ? & ? & ? & ?). by exists (S j).
    + intros ([|j] & ? & ? & [= <-] & ?); [|by exists j].
      destruct Hskip as [_ Hskip]. by specialize (Hskip ltac:(done)).
  - rewrite elem_of_cons, Htail. split.
    + intros [[= -> -> ->] | (j & ? & ? & ? & ?)].
      * exists 0%nat. rewrite Nat.add_0_r. repeat split. by apply Hskip.
      * by exists (S j).
    + intros ([|j] & -> & Hev & Ht & ?).
      * left. injection Hev as <-. injection Ht as <-.
        by rewrite Nat.add_0_r.
      * right. by exists j.
Qed.

Lemma selected_indices_lower time_range index events timestamps :
  Forall (λ x, (index ≤ x.1.2)%nat)
    (selected time_range index events timestamps).
Proof.
  revert index timestamps.
  induction events as [|ev events IH]; intros index [|t timestamps];
    simpl; try done.
  assert (Forall (λ x, (index ≤ x.1.2)%nat)
            (selected time_range (S index) events timestamps)) as Htail.
  { eapply Forall_impl; [apply IH|]. simpl. lia. }
  destruct (outside_time_range time_range t) as [[|]|]; try done.
  by constructor.
Qed.

Lemma selected_indices_NoDup time_range index events timestamps :
  NoDup ((λ x, x.1.2) <$> selected time_range index events timestamps).
Proof.
  revert index timestamps.
  induction events as [|ev events IH]; intros index [|t timestamps];
    simpl; try by constructor.
  destruct (outside_time_range time_range t) as [[|]|]; try done.
  rewrite fmap_cons. constructor; [|done]. simpl.
  intros (x & Hx & Hin)%list_elem_of_fmap.
  pose proof (selected_indices_lower time_range (S index) events timestamps)
    as Hlow.
  rewrite Forall_forall in Hlow. apply Hlow in Hin. lia.
Qed.

(** A list sorted by the key, whose positions are pairwise distinct and
    carry the timestamps of the table, is sorted by [before]. *)
Lemma sorted_before timestamps (l : list ((Z * nat) * nat)) :
  StronglySorted (λ x y, key_le x.1 y.1 = true) l →
  NoDup ((λ x, x.1.2) <$> l) →
  Forall (λ x, timestamps !! x.1.2 = Some x.1.1) l →
  StronglySorted (before timestamps) ((λ x, x.1.2) <$> l).
Proof.
  induction 1 as [|x l Hs IH Hx]; intros Hnd Hts; [constructor|].
  rewrite fmap_cons in *. apply NoDup_cons in Hnd as [Hnot Hnd].
  apply Forall_cons in Hts as [Htx Hts].
  constructor; [by apply IH|].
  apply Forall_fmap, Forall_forall. intros y Hy. simpl.
  rewrite Forall_forall in Hx, Hts.
  pose proof (Hx y Hy) as Hle. pose proof (Hts y Hy) as Hty.
  exists x.1.1, y.1.1. repeat split; try done.
  apply key_le_spec in Hle.
  assert (x.1.2 ≠ y.1.2).
  { intros Heq. apply Hnot, list_elem_of_fmap. by exists y. }
  lia.
Qed.

(** C4: for a store that is open, the table of events [events] (the
    references, in the order in which the events were added) with integer
    timestamps [timestamps], and a time range that is absent or has integer
    end points, [GetSortedEvents] returns the events at the positions
    [indices], where no position occurs twice, a position occurs exactly when
    the timestamp of its event lies in the time range (end points included),
    and the positions are ordered by (timestamp, position): events of equal
    timestamp come in the order in which they were added. *)
Theorem GetSortedEvents_sorted (w : World) (time_range : option TimeRange)
    (events : list nat) (timestamps : list Z) :
  _is_open (store w) = true →
  OrderedDict.values
    (default [] (_attribute_containers (store w) !! _CONTAINER_TYPE_EVENT))
    = events →
  Forall2 (has_timestamp w) events timestamps →
  integer_end_points time_range →
  ∃ indices result,
    GetSortedEvents w time_range = Ok result ∧
    Forall2 (λ i event, events !! i = Some event) indices result ∧
    NoDup indices ∧
    (∀ i, i ∈ indices ↔
          ∃ t, timestamps !! i = Some t ∧ in_time_range time_range t) ∧
    StronglySorted (before timestamps) indices.
Proof.
  intros Hopen Hevents Hts Htr.
  unfold GetSortedEvents, GetAttributeContainers. rewrite Hopen. simpl.
  rewrite Hevents.
  destruct (push_events_selected w time_range 0 events timestamps Leaf Hts Htr)
    as (h & -> & Hperm & Hord). simpl.
  rewrite app_nil_r in Hperm. specialize (Hord I).
  unfold PopEvents. rewrite pop_events_drain.
  pose proof (drain_Permutation (size h) h ltac:(done)) as Hdrain.
  pose proof (drain_sorted (size h) h ltac:(done) Hord) as Hsorted.
  set (popped := drain (size h) h) in *.
  assert (popped ≡ₚ selected time_range 0 events timestamps) as Hsel
    by (by rewrite Hdrain).
  pose proof (Forall2_length _ _ _ Hts) as Hlen.
  assert (∀ t i event, ((t, i), event) ∈ popped ↔
            events !! i = Some event ∧ timestamps !! i = Some t ∧
            in_time_range time_range t) as Hin.
  { intros t i event. rewrite Hsel, elem_of_selected by done. split.
    - by intros (j & -> & ? & ? & ?).
    - intros (? & ? & ?). by exists i. }
  exists ((λ x, x.1.2) <$> popped), popped.*2.
  split; [done|]. split; [|split; [|split]].
  - apply Forall2_fmap, Forall_Forall2_diag, Forall_forall.
    intros [[t i] event] Hx. by apply Hin in Hx as (? & _).
  - rewrite Hsel. apply selected_indices_NoDup.
  - intros i. rewrite list_elem_of_fmap. split.
    + intros ([[t i'] event] & -> & Hx). exists t. by apply Hin in Hx as (_ & ?).
    + intros (t & Ht & Hr).
      destruct (lookup_lt_is_Some_2 events i) as [event Hev].
      { rewrite Hlen. by eapply lookup_lt_Some. }
      exists ((t, i), event). split; [done|]. by apply Hin.
  - apply sorted_before; [done | |].
    + rewrite Hsel. apply selected_indices_NoDup.
    + apply Forall_forall. intros [[t i] event] Hx.
      by apply Hin in Hx as (_ & ? & _).
Qed.

End sorted_events.

(** The events of timestamps 100, 100, 50 and 200, within the time range
    from 100 to 200. *)
Lemma GetSortedEvents_sorted_witness :
  let time_range :=
    Some {| start_timestamp := Some 100; end_timestamp := Some 200 |} in
  ∃ indices result,
    GetSortedEvents Examples.world_of_four_events time_range = Ok result ∧
    Forall2 (λ i event, [1; 3; 5; 7]%nat !! i = Some event) indices result ∧
    NoDup indices ∧
    (∀ i, i ∈ indices ↔
          ∃ t, [100; 100; 50; 200] !! i = Some t ∧
               in_time_range time_range t) ∧
    StronglySorted (before [100; 100; 50; 200]) indices.
Proof.
  apply (GetSortedEvents_sorted Examples.world_of_four_events
           (Some {| start_timestamp := Some 100; end_timestamp := Some 200 |})
           [1; 3; 5; 7]%nat [100; 100; 50; 200]).
  - reflexivity.
  - reflexivity.
  - repeat constructor; eexists; (split; [reflexivity|]); reflexivity.
  - split; by eexists.
Defined.

(** The second scenario of the spec: the events of timestamps 100, 100, 50
    and 200 come out as 50, 100, 100, 200, and the event of timestamp 100 that
    was added first comes first. *)
Lemma GetSortedEvents_tie :
  GetSortedEvents Examples.world_of_four_events None
  = Ok [5; 1; 3; 7]%nat ∧
  Examples.fake_sorted_timestamps [100; 100; 50; 200] None
  = Ok [Some (PyInt 50); Some (PyInt 100); Some (PyInt 100);
        Some (PyInt 200)].
Proof. vm_compute. done. Qed.

End FakeSortedEvents.

(** ** The in-memory store: what a write stores *)

Module FakeWrites.
Import Fake.

Section writes.
Context {container_types : ContainerTypes}.

Lemma deref_Some w reference c :
  deref w reference = Ok c → objects w !! reference = Some c.
Proof. unfold deref. destruct (objects w !! reference); naive_solver. Qed.

(** The reference that a write of a new container stores: a new object, which
    is a copy of the container with its identifier. *)
Lemma WriteNew_stores_copy w container w' :
  _WriteNewAttributeContainer w container = Ok w' →
  ∃ c,
    objects w !! container = Some c ∧
    let n :=
      default 0
        (_attribute_container_sequence_numbers (store w) !! CONTAINER_TYPE c)
      + 1 in
    let stored := length (objects w) in
    let c' := SetIdentifier c (FakeIdentifier n) in
    objects w' = (<[container := c']> (objects w) ++ [c'])%list ∧
    _attribute_containers (store w') =
      <[CONTAINER_TYPE c :=
          OrderedDict.set
            (default [] (_attribute_containers (store w) !! CONTAINER_TYPE c))
            (pretty n) stored]> (_attribute_containers (store w)) ∧
    _is_open (store w') = _is_open (store w) ∧
    (CONTAINER_TYPE c = _CONTAINER_TYPE_EVENT_TAG →
     ∃ i, GetEventIdentifier c = PyIdentifier i ∧
          _event_tag_per_event_identifier (store w') =
            <[CopyToString i := stored]>
              (_event_tag_per_event_identifier (store w))).
Proof.
  unfold _WriteNewAttributeContainer. intros H.
  destruct (deref w container) as [c|] eqn:Hc; [|done]. simpl in H.
  apply deref_Some in Hc. exists c.
  destruct (String.eqb (CONTAINER_TYPE c) _CONTAINER_TYPE_EVENT_TAG) eqn:Ht;
    simpl in H.
  - unfold GetEventIdentifier, getattr in *. simpl in H.
    destruct (dict_get (attributes c) "_event_identifier") eqn:Hi;
      simpl in H; try done.
    injection H as <-. simpl. repeat split; try done.
    + by rewrite length_insert.
    + intros _. eexists. split; [done|]. by rewrite length_insert.
  - injection H as <-. simpl. repeat split; try done.
    + by rewrite length_insert.
    + intros Heq. apply String.eqb_neq in Ht. done.
Qed.

(** A write of a new container keeps a copy: what the caller does to its
    own object afterwards does not reach the object that the store holds. *)
Lemma add_stores_copy w container w' name value :
  AddAttributeContainer w container = Ok w' →
  let stored := length (objects w) in
  stored ≠ container ∧
  objects (caller_setattr w' container name value) !! stored
    = objects w' !! stored.
Proof.
  unfold AddAttributeContainer. intros H.
  destruct (_RaiseIfNotWritable (store w)); [|done]. simpl in H.
  apply WriteNew_stores_copy in H as (c & Hc & Hobjs & _).
  assert (container < length (objects w))%nat by by eapply lookup_lt_Some.
  simpl. split; [lia|]. by rewrite list_lookup_alter_ne by lia.
Qed.

(** The event tag that the store returns for an event is the event tag that
    was added last for that event: the object that the store made of it. *)
Lemma add_event_tag_replaces w event_tag w' c i :
  AddAttributeContainer w event_tag = Ok w' →
  objects w !! event_tag = Some c →
  CONTAINER_TYPE c = _CONTAINER_TYPE_EVENT_TAG →
  GetEventIdentifier c = PyIdentifier (FakeIdentifier i) →
  ∃ n, GetEventTagByEventIdentifier (store w') (FakeIdentifier i)
       = Ok (Some (length (objects w))) ∧
     objects w' !! length (objects w)
       = Some (SetIdentifier c (FakeIdentifier n)).
Proof.
  unfold AddAttributeContainer. intros H Hc Ht Hi.
  destruct (_RaiseIfNotWritable (store w)); [|done]. simpl in H.
  apply WriteNew_stores_copy in H as (c' & Hc' & Hobjs & _ & _ & Htag).
  simpl in *. rewrite Hc in Hc'. injection Hc' as <-.
  destruct (Htag Ht) as (i' & Hi' & ->). rewrite Hi in Hi'.
  injection Hi' as <-. eexists. split.
  - simpl. by rewrite lookup_insert_eq.
  - rewrite Hobjs, lookup_app_r by (by rewrite length_insert).
    by rewrite length_insert, Nat.sub_diag.
Qed.

End writes.

(** C9: the store is opened, an event source is added and then updated with
    the same object, and the caller sets an attribute of its object. The
    update has stored the object of the caller itself, not a copy: the
    container that the store returns, by identifier, by index and on
    iteration, is the object of the caller, and it shows the change. *)
Theorem update_stores_reference :
  let w := Examples.world_after_update in
  let w' := caller_setattr w Examples.caller_object "data_type" (PyStr "changed") in
  let data_type (w : World) (r : Result (option nat)) :=
    match r with
    | Ok (Some reference) =>
        (λ c, getattr c "data_type") <$> objects w !! reference
    | _ => None
    end in
  GetAttributeContainerByIdentifier (store w) "event_source" (FakeIdentifier 1)
    = Ok (Some Examples.caller_object) ∧
  data_type w
    (GetAttributeContainerByIdentifier (store w) "event_source"
       (FakeIdentifier 1)) = Some (PyStr "os:file") ∧
  data_type w'
    (GetAttributeContainerByIdentifier (store w') "event_source"
       (FakeIdentifier 1)) = Some (PyStr "changed") ∧
  data_type w'
    (GetAttributeContainerByIndex (container_types := Examples.example_container_types)
       (store w') "event_source" 0) = Some (PyStr "changed") ∧
  GetAttributeContainers (store w') "event_source"
    = Ok [Examples.caller_object].
Proof. vm_compute. done. Qed.

End FakeWrites.

(** ** The SQLite store: results that do not raise *)

#[global] Arguments String.eqb : simpl never.

Module ResultFacts.

Lemma bind_Ok {A B} (r : Result A) (k : A → Result B) (b : B) :
  bind r k = Ok b → ∃ a, r = Ok a ∧ k a = Ok b.
Proof. destruct r; simpl; [by eauto | done]. Qed.

Lemma except_OperationalError_Ok {A} (r : Result A) message (a : A) :
  except_OperationalError r message = Ok a → r = Ok a.
Proof. by destruct r as [|[]]. Qed.

End ResultFacts.

(** Takes apart a hypothesis [let* x := r in k = Ok b]. *)
Ltac inv_bind H :=
  let a := fresh "a" in
  let Ha := fresh "Ha" in
  apply ResultFacts.bind_Ok in H as (a & Ha & H);
  try apply ResultFacts.except_OperationalError_Ok in Ha.

(** Evaluates the comparisons of strings that are known, and simplifies. *)
Ltac eval_eqb :=
  repeat match goal with
  | |- context [String.eqb ?a ?b] =>
      let v := eval vm_compute in (String.eqb a b) in
      match v with
      | true => change (String.eqb a b) with true
      | false => change (String.eqb a b) with false
      end
  end.

Ltac py_eval := repeat (progress (eval_eqb; cbn)).

(** ** The SQLite store: opening a file that does not exist *)

Module SQLiteOpen.
Import sqlite3 SQLite.

Section open.
Context {container_types : ContainerTypes}.

(** A store that is opened for reading only, on a path at which there is no
    file: the exception of [sqlite3.connect] leaves [Open] as it is. *)
Lemma Open_read_only_missing files self path :
  _is_open self = false → path ≠ "" → files !! path = None →
  Open files self path true
  = Raise (sqlite3_OperationalError "unable to open database file").
Proof.
  intros Hopen Hpath Hfile. unfold Open, connect. rewrite Hopen, Hfile.
  apply String.eqb_neq in Hpath. by rewrite Hpath.
Qed.

(** A missing path is a [ValueError]. *)
Lemma Open_missing_path files self read_only :
  _is_open self = false →
  Open files self "" read_only = Raise (ValueError "Missing path.").
Proof. intros Hopen. unfold Open. by rewrite Hopen. Qed.

End open.

(** C8: a new store is opened for reading only at the path
    [/tmp/missing.plaso], and there is no file at all. [Open] does not raise
    an [IOError]: the [sqlite3.OperationalError] of [sqlite3.connect], which
    is not caught, leaves [Open]. *)
Theorem Open_missing_file_raises_sqlite3_error :
  Open (container_types := Examples.example_container_types) ∅
    (__init__ "session") "/tmp/missing.plaso" true
  = Raise (sqlite3_OperationalError "unable to open database file") ∧
  ¬ is_IOError
      (Open (container_types := Examples.example_container_types) ∅
         (__init__ "session") "/tmp/missing.plaso" true).
Proof.
  rewrite Open_read_only_missing by done. split; [done|].
  intros [message ?]. done.
Qed.

End SQLiteOpen.

(** ** The SQLite store: events in a time range *)

Module SQLiteSortedEvents.
Import sqlite3 SQLite Examples.

(** The example of the spec: of the events of timestamps 10, 20, 30, 40 and
    50, the time range from 20 to 40 selects those of 20, 30 and 40. *)
Lemma sorted_timestamps_20_40 :
  sorted_timestamps [10; 20; 30; 40; 50]
    (Some {| start_timestamp := Some 20; end_timestamp := Some 40 |})
  = Ok [PyInt 20; PyInt 30; PyInt 40].
Proof. vm_compute. reflexivity. Qed.

(** C5: events of timestamps -5 and 10 are added to a new store. For the time
    range from 0 to 20, [GetSortedEvents] of the SQLite store yields both
    events: the start of the time range, 0, counts as no start at all. The
    in-memory store yields the event of timestamp 10 only. *)
Theorem GetSortedEvents_start_timestamp_zero :
  let time_range :=
    Some {| start_timestamp := Some 0; end_timestamp := Some 20 |} in
  sorted_timestamps [-5; 10] time_range = Ok [PyInt (-5); PyInt 10] ∧
  time_range_filter "timestamp" time_range = [("timestamp", LessEqual, 20)] ∧
  fake_sorted_timestamps [-5; 10] time_range = Ok [Some (PyInt 10)].
Proof. vm_compute. done. Qed.

End SQLiteSortedEvents.

(** ** The SQLite store: identifiers in the outbound record *)

Module SQLiteRewrite.
Import sqlite3 SQLite.

Lemma identifier_mappings_cases container_type mapping :
  mapping ∈ identifier_mappings_of container_type →
  (container_type = "event" ∧
   mapping = ("event_data", "_event_data_identifier",
              "_event_data_row_identifier")) ∨
  (container_type = "event_tag" ∧
   mapping = ("event", "_event_identifier", "_event_row_identifier")).
Proof.
  unfold identifier_mappings_of. simpl.
  destruct (String.eqb_spec "event" container_type) as [<-|_].
  { simpl. rewrite list_elem_of_singleton. by left. }
  destruct (String.eqb_spec "event_tag" container_type) as [<-|_].
  { simpl. rewrite list_elem_of_singleton. by right. }
  simpl. by rewrite elem_of_nil.
Qed.

Lemma getattr_setattr_eq c name v : getattr (setattr c name v) name = v.
Proof. unfold getattr, setattr, dict_get. simpl. by rewrite lookup_insert_eq. Qed.

Lemma getattr_setattr_ne c name name' v :
  name ≠ name' → getattr (setattr c name v) name' = getattr c name'.
Proof.
  intros. unfold getattr, setattr, dict_get. simpl.
  by rewrite lookup_insert_ne.
Qed.

Lemma getattr_delattr_ne c name name' :
  name ≠ name' → getattr (delattr c name) name' = getattr c name'.
Proof.
  intros. unfold getattr, delattr, dict_get. simpl.
  by rewrite lookup_delete_ne.
Qed.

Lemma getattr_delattr_eq c name : getattr (delattr c name) name = PyNone.
Proof.
  unfold getattr, delattr, dict_get. simpl. by rewrite lookup_delete_eq.
Qed.

Lemma getattr_SetIdentifier c i name :
  getattr (SetIdentifier c i) name = getattr c name.
Proof. done. Qed.

(** The rewrite of the identifiers, for a container type of the reference
    map and a container that holds a row identifier. *)
Lemma UpdateBeforeSerialize_mapped c referenced attribute_name
    serialized_attribute_name table_name n :
  (referenced, attribute_name, serialized_attribute_name)
    ∈ identifier_mappings_of (CONTAINER_TYPE c) →
  getattr c attribute_name
    = PyIdentifier (SQLTableIdentifier table_name n) →
  _UpdateAttributeContainerBeforeSerialize c
  = Ok (setattr c serialized_attribute_name (PyInt n)).
Proof.
  intros Hm Hattr. unfold _UpdateAttributeContainerBeforeSerialize.
  apply identifier_mappings_cases in Hm as [[Ht [= -> -> ->]]|[Ht [= -> -> ->]]];
    rewrite Ht; simpl; by rewrite Hattr.
Qed.

(** The rewrite fails for a container that does not hold a row identifier. *)
Lemma UpdateBeforeSerialize_unsupported c referenced attribute_name
    serialized_attribute_name :
  (referenced, attribute_name, serialized_attribute_name)
    ∈ identifier_mappings_of (CONTAINER_TYPE c) →
  (∀ table_name n,
     getattr c attribute_name
       ≠ PyIdentifier (SQLTableIdentifier table_name n)) →
  _UpdateAttributeContainerBeforeSerialize c
  = Raise (IOError "Unsupported attribute container identifier type").
Proof.
  intros Hm Hattr. unfold _UpdateAttributeContainerBeforeSerialize.
  apply identifier_mappings_cases in Hm as [[Ht [= -> -> ->]]|[Ht [= -> -> ->]]];
    rewrite Ht; simpl.
  - destruct (getattr c "_event_data_identifier") as [| | | | |[m|t m]|] eqn:E;
      try done. by destruct (Hattr t m).
  - destruct (getattr c "_event_identifier") as [| | | | |[m|t m]|] eqn:E;
      try done. by destruct (Hattr t m).
Qed.

Lemma schema_values_no_bool c items :
  Forall (λ item, String.eqb item.2 "bool" = false) items →
  schema_values c items = Ok (schema_value c <$> items).
Proof.
  induction 1 as [|[name data_type] items Hb _ IH]; [done|].
  simpl in *. rewrite IH, Hb. unfold schema_value. simpl.
  by destruct (getattr c name); simpl; destruct (has_sqlite_type data_type).
Qed.

Lemma serialized_fields_schema_value c items :
  mjoin (serialized_fields <$> (schema_value c <$> items)) = [].
Proof.
  induction items as [|item items IH]; [done|].
  rewrite !fmap_cons. simpl. rewrite IH, app_nil_r.
  unfold schema_value.
  by destruct (getattr c item.1); destruct (has_sqlite_type item.2).
Qed.

Lemma schema_value_identifier c name n :
  getattr c name = PyInt n →
  schema_value c (name, "AttributeContainerIdentifier") = inl (PyInt n).
Proof. intros H. unfold schema_value. cbn [fst snd]. by rewrite H. Qed.

Lemma sorted_items_event :
  sorted_items (schema_of "event")
  = [("_event_data_row_identifier", "AttributeContainerIdentifier");
     ("date_time", "dfdatetime.DateTimeValues");
     ("timestamp", "int");
     ("timestamp_desc", "str")].
Proof. vm_compute. reflexivity. Qed.

Lemma sorted_items_event_tag :
  sorted_items (schema_of "event_tag")
  = [("_event_row_identifier", "AttributeContainerIdentifier");
     ("labels", "List[str]")].
Proof. vm_compute. reflexivity. Qed.

(** The record of the schema, for a container type of the reference map. *)
Lemma schema_record_mapped c referenced attribute_name
    serialized_attribute_name n :
  (referenced, attribute_name, serialized_attribute_name)
    ∈ identifier_mappings_of (CONTAINER_TYPE c) →
  getattr c serialized_attribute_name = PyInt n →
  ∃ values,
    schema_values c (sorted_items (schema_of (CONTAINER_TYPE c))) = Ok values ∧
    (attribute_name
       ∉ outbound_names (sorted_keys (schema_of (CONTAINER_TYPE c)), values)) ∧
    outbound_value (sorted_keys (schema_of (CONTAINER_TYPE c)), values)
      serialized_attribute_name (PyInt n).
Proof.
  intros Hm Hser.
  apply identifier_mappings_cases in Hm as [[Ht [= -> -> ->]]|[Ht [= -> -> ->]]];
    rewrite Ht; unfold sorted_keys.
  - rewrite sorted_items_event.
    rewrite schema_values_no_bool by (repeat constructor).
    eexists. split; [done|]. unfold outbound_names, outbound_value.
    cbn [fst snd]. rewrite serialized_fields_schema_value. split.
    + simpl. rewrite !elem_of_cons, elem_of_nil. intuition discriminate.
    + left. rewrite !fmap_cons, (schema_value_identifier _ _ _ Hser).
      apply list_elem_of_here.
  - rewrite sorted_items_event_tag.
    rewrite schema_values_no_bool by (repeat constructor).
    eexists. split; [done|]. unfold outbound_names, outbound_value.
    cbn [fst snd]. rewrite serialized_fields_schema_value. split.
    + simpl. rewrite !elem_of_cons, elem_of_nil. intuition discriminate.
    + left. rewrite !fmap_cons, (schema_value_identifier _ _ _ Hser).
      apply list_elem_of_here.
Qed.

(** The serialized container, for a container that holds an encodable
    field. *)
Lemma SerializeAttributeContainer_fields c name v :
  getattr c name = v → encodable v = true →
  ∃ fields,
    _SerializeAttributeContainer c
    = Ok (SerializedContainer (CONTAINER_TYPE c) fields) ∧
    (name, v) ∈ fields ∧
    ∀ name' v', (name', v') ∈ fields →
                getattr c name' = v' ∧ encodable v' = true.
Proof.
  intros Hv He.
  unfold _SerializeAttributeContainer, WriteSerialized_container.
  set (fields := filter _ _).
  assert (∀ name' v', (name', v') ∈ fields ↔
            attributes c !! name' = Some v' ∧ encodable v' = true) as Hin.
  { intros name' v'. unfold fields.
    rewrite list_elem_of_filter, elem_of_map_to_list. simpl. tauto. }
  assert ((name, v) ∈ fields) as Hname.
  { apply Hin. split; [|done]. unfold getattr, dict_get in Hv.
    destruct (attributes c !! name); simpl in Hv; [by subst|].
    by subst v. }
  exists fields. split; [|split; [done|]].
  - destruct fields; [by apply elem_of_nil in Hname | done].
  - intros name' v' [Hl ?]%Hin. split; [|done].
    unfold getattr, dict_get. by rewrite Hl.
Qed.

(** The outbound record of a new container, for a container type of the
    reference map, after the rewrite of the identifiers. *)
Lemma new_record_mapped self c referenced attribute_name
    serialized_attribute_name table_name n :
  (referenced, attribute_name, serialized_attribute_name)
    ∈ identifier_mappings_of (CONTAINER_TYPE c) →
  getattr c attribute_name
    = PyIdentifier (SQLTableIdentifier table_name n) →
  getattr c serialized_attribute_name = PyInt n →
  ∃ record,
    new_record self c = Ok record ∧
    (attribute_name ∉ outbound_names record) ∧
    outbound_value record serialized_attribute_name (PyInt n).
Proof.
  intros Hm Hattr Hser. unfold new_record.
  assert (nonempty (schema_of (CONTAINER_TYPE c)) = true) as ->.
  { by apply identifier_mappings_cases in Hm as [[-> _]|[-> _]]. }
  destruct (_use_schema self); simpl.
  { destruct (schema_record_mapped _ _ _ _ _ Hm Hser) as (values & -> & ?).
    by eexists. }
  destruct (SerializeAttributeContainer_fields c _ _ Hser eq_refl)
    as (fields & -> & Hin & Hfields). simpl.
  assert (attribute_name ∉ fields.*1) as Hnot.
  { intros ([name' v'] & -> & [Hv He]%Hfields)%list_elem_of_fmap.
    simpl in *. rewrite Hattr in Hv. by subst v'. }
  assert (attribute_name ∉ ["_timestamp"; "_data"]) as Hcolumns.
  { apply identifier_mappings_cases in Hm as [[_ [= _ -> _]]|[_ [= _ -> _]]];
      rewrite !elem_of_cons, elem_of_nil; intuition discriminate. }
  rewrite !elem_of_cons, elem_of_nil in Hcolumns.
  destruct (String.eqb (CONTAINER_TYPE c) _CONTAINER_TYPE_EVENT);
    eexists; (split; [done|]); unfold outbound_names, outbound_value;
    destruct (py_eq_str (compression_format self) _); simpl;
    rewrite ?app_nil_r, ?elem_of_cons, ?elem_of_app, ?elem_of_nil;
    tauto.
Qed.

(** The outbound record of an existing container. *)
Lemma existing_record_mapped c referenced attribute_name
    serialized_attribute_name n :
  (referenced, attribute_name, serialized_attribute_name)
    ∈ identifier_mappings_of (CONTAINER_TYPE c) →
  getattr c serialized_attribute_name = PyInt n →
  ∃ record,
    existing_record c = Ok record ∧
    (attribute_name ∉ outbound_names record) ∧
    outbound_value record serialized_attribute_name (PyInt n).
Proof.
  intros Hm Hser. unfold existing_record.
  destruct (schema_record_mapped _ _ _ _ _ Hm Hser) as (values & -> & ?).
  by eexists.
Qed.

Lemma UpdateBeforeSerialize_type c c' :
  _UpdateAttributeContainerBeforeSerialize c = Ok c' →
  CONTAINER_TYPE c' = CONTAINER_TYPE c ∧ GetIdentifier c' = GetIdentifier c.
Proof.
  unfold _UpdateAttributeContainerBeforeSerialize.
  assert (∀ mappings c c',
            rewrite_identifiers c mappings = Ok c' →
            CONTAINER_TYPE c' = CONTAINER_TYPE c ∧
            GetIdentifier c' = GetIdentifier c) as Hloop.
  { induction mappings as [|[[r a] sa] mappings IH]; intros d d' H; simpl in H.
    - by injection H as <-.
    - destruct (getattr d a) as [| | | | |[m|t m]|]; try done.
      by apply IH in H as [-> ->]. }
  destruct (nonempty _); [by apply Hloop|].
  destruct (String.eqb _ _); [|by intros [= <-]].
  destruct (truthy _); [|by intros [= <-]].
  destruct (GetEventDataStreamIdentifier c) as [| | | | |[m|t m]|]; try done.
  by intros [= <-].
Qed.

Lemma same_except_cache_Cache self c index :
  same_except_cache (_CacheAttributeContainerByIndex self c index) self.
Proof.
  unfold _CacheAttributeContainerByIndex.
  by destruct (_ && _); repeat split.
Qed.

(** What a write of a new container that returns has done: the container has
    its identifier and its rewritten identifiers, and the outbound record
    has been inserted into the table of the container type. *)
Lemma WriteNew_Ok self c self' written :
  _WriteNewAttributeContainer self c = Ok (self', written) →
  let n :=
    default 0 (_attribute_container_sequence_numbers self !! CONTAINER_TYPE c)
    + 1 in
  ∃ record values db db',
    _UpdateAttributeContainerBeforeSerialize
      (SetIdentifier c (SQLTableIdentifier (CONTAINER_TYPE c) n))
      = Ok written ∧
    new_record self written = Ok record ∧
    cursor self = Ok db ∧
    bind_values record.2 = Ok values ∧
    insert db (CONTAINER_TYPE c) record.1 values = Ok db' ∧
    same_except_cache self'
      (set_database
         (set_sequence_numbers self
            (<[CONTAINER_TYPE c := n]>
               (_attribute_container_sequence_numbers self))) db').
Proof.
  unfold _WriteNewAttributeContainer, _GetAttributeContainerNextSequenceNumber.
  intros H. simpl. inv_bind H.
  pose proof (UpdateBeforeSerialize_type _ _ Ha) as [Ht _]. simpl in Ht.
  inv_bind H. destruct a0 as [column_names values]. inv_bind H. inv_bind H.
  inv_bind H. rewrite Ht in *.
  exists (column_names, values), a1, a0, a2.
  destruct (_ && _); injection H as <- <-; do 5 (split; [done|]); [|done].
  apply same_except_cache_Cache.
Qed.

(** What a write of an existing container that returns has done. *)
Lemma WriteExisting_Ok self c self' written :
  _WriteExistingAttributeContainer self c = Ok (self', written) →
  ∃ table_name n record values db db',
    GetIdentifier c = Some (SQLTableIdentifier table_name n) ∧
    _UpdateAttributeContainerBeforeSerialize c = Ok written ∧
    existing_record written = Ok record ∧
    cursor self = Ok db ∧
    bind_values record.2 = Ok values ∧
    update db (CONTAINER_TYPE c) record.1 values n = Ok db' ∧
    self' = set_database self db'.
Proof.
  unfold _WriteExistingAttributeContainer. intros H.
  destruct (GetIdentifier c) as [[m|table_name n]|]; try done.
  destruct (negb _); [done|]. inv_bind H.
  pose proof (UpdateBeforeSerialize_type _ _ Ha) as [Ht _].
  inv_bind H. destruct a0 as [column_names values]. inv_bind H. inv_bind H.
  inv_bind H. injection H as <- <-. rewrite Ht in *.
  by exists table_name, n, (column_names, values), a1, a0, a2.
Qed.

Lemma insert_returns db name t column_names values :
  db !! name = Some t →
  forallb (has_column t) column_names = true →
  insert db name column_names values
  = Ok (<[name := {| column_definitions := column_definitions t;
                     rows := (rows t ++
                              [list_to_map (zip column_names values)])%list
                  |}]> db).
Proof.
  intros Ht Hcols. unfold insert, get_table, check_columns.
  rewrite Ht. cbn [bind]. by rewrite Hcols.
Qed.

Lemma update_returns db name t column_names values rowid :
  db !! name = Some t →
  forallb (has_column t) column_names = true →
  update db name column_names values rowid
  = Ok (<[name :=
            {| column_definitions := column_definitions t;
               rows :=
                 if 1 <=? rowid
                 then alter (λ row, list_to_map (zip column_names values) ∪ row)
                        (Z.to_nat (rowid - 1)) (rows t)
                 else rows t |}]> db).
Proof.
  intros Ht Hcols. unfold update, get_table, check_columns.
  rewrite Ht. cbn [bind]. by rewrite Hcols.
Qed.

Lemma new_record_set_sequence_numbers self sequence_numbers c :
  new_record (set_sequence_numbers self sequence_numbers) c
  = new_record self c.
Proof. done. Qed.

Lemma cursor_set_sequence_numbers self sequence_numbers :
  cursor (set_sequence_numbers self sequence_numbers) = cursor self.
Proof. done. Qed.

Lemma mapped_type_not_event_source c mapping :
  mapping ∈ identifier_mappings_of (CONTAINER_TYPE c) →
  String.eqb (CONTAINER_TYPE c) _CONTAINER_TYPE_EVENT_SOURCE = false.
Proof. by intros [[-> _]|[-> _]]%identifier_mappings_cases. Qed.

(** C2: for a container [c] of a type with a reference mapping (referenced
    type, runtime name, serialized name), a write reads the attribute of the
    runtime name. If its value is not a row identifier, the write of a new
    container and the write of an existing container raise the [IOError] of
    an unsupported identifier. If it is a row identifier of sequence number
    [n], the rewrite sets the attribute of the serialized name to [n], and
    the outbound record (of a new container: after the container has been
    given its identifier) gives the value [n] to the serialized name and does
    not have the runtime name. The write of a new container returns the
    rewritten container and has inserted the outbound record as a new row,
    and the write of an existing container returns the rewritten container
    and has set the columns of the row of its identifier to the outbound
    record, whenever the store is connected to a database that has the table
    of the container type with the columns of the record, and the values of
    the record can be bound; and a write that returns has done so. *)
Theorem write_rewrites_identifiers (self : SQLiteStorageFile)
    (c : AttributeContainer) referenced attribute_name
    serialized_attribute_name :
  (referenced, attribute_name, serialized_attribute_name)
    ∈ identifier_mappings_of (CONTAINER_TYPE c) →
  match getattr c attribute_name with
  | PyIdentifier (SQLTableIdentifier table_name n) =>
      (∃ rewritten record,
         _UpdateAttributeContainerBeforeSerialize
           (SetIdentifier c (next_identifier self c)) = Ok rewritten ∧
         rewritten
           = setattr (SetIdentifier c (next_identifier self c))
               serialized_attribute_name (PyInt n) ∧
         new_record self rewritten = Ok record ∧
         (attribute_name ∉ outbound_names record) ∧
         outbound_value record serialized_attribute_name (PyInt n) ∧
         (∀ self' written,
            _WriteNewAttributeContainer self c = Ok (self', written) →
            written = rewritten ∧
            ∃ values db db',
              cursor self = Ok db ∧ bind_values record.2 = Ok values ∧
              insert db (CONTAINER_TYPE c) record.1 values = Ok db' ∧
              cursor self' = Ok db') ∧
         (∀ db t values,
            cursor self = Ok db → db !! CONTAINER_TYPE c = Some t →
            forallb (has_column t) record.1 = true →
            bind_values record.2 = Ok values →
            ∃ self',
              _WriteNewAttributeContainer self c = Ok (self', rewritten) ∧
              cursor self'
              = Ok (<[CONTAINER_TYPE c :=
                        {| column_definitions := column_definitions t;
                           rows :=
                             (rows t ++
                              [list_to_map (zip record.1 values)])%list |}]>
                      db))) ∧
      (∃ rewritten record,
         _UpdateAttributeContainerBeforeSerialize c = Ok rewritten ∧
         rewritten = setattr c serialized_attribute_name (PyInt n) ∧
         existing_record rewritten = Ok record ∧
         (attribute_name ∉ outbound_names record) ∧
         outbound_value record serialized_attribute_name (PyInt n) ∧
         (∀ self' written,
            _WriteExistingAttributeContainer self c = Ok (self', written) →
            written = rewritten ∧
            ∃ row_table row values db db',
              GetIdentifier c = Some (SQLTableIdentifier row_table row) ∧
              cursor self = Ok db ∧ bind_values record.2 = Ok values ∧
              update db (CONTAINER_TYPE c) record.1 values row = Ok db' ∧
              cursor self' = Ok db') ∧
         (∀ row_table row db t values,
            GetIdentifier c = Some (SQLTableIdentifier row_table row) →
            cursor self = Ok db → db !! CONTAINER_TYPE c = Some t →
            forallb (has_column t) record.1 = true →
            bind_values record.2 = Ok values →
            ∃ self',
              _WriteExistingAttributeContainer self c
              = Ok (self', rewritten) ∧
              cursor self'
              = Ok (<[CONTAINER_TYPE c :=
                        {| column_definitions := column_definitions t;
                           rows :=
                             if 1 <=? row
                             then alter
                                    (λ stored,
                                       list_to_map (zip record.1 values)
                                       ∪ stored)
                                    (Z.to_nat (row - 1)) (rows t)
                             else rows t |}]> db)))
  | _ =>
      _WriteNewAttributeContainer self c
      = Raise (IOError "Unsupported attribute container identifier type") ∧
      _WriteExistingAttributeContainer self c
      = Raise (IOError "Unsupported attribute container identifier type")
  end.
Proof.
  intros Hm.
  assert (attribute_name ≠ serialized_attribute_name) as Hne.
  { by apply identifier_mappings_cases in Hm
      as [[_ [= _ -> ->]]|[_ [= _ -> ->]]]. }
  assert (nonempty (schema_of (CONTAINER_TYPE c)) = true) as Hschema.
  { by apply identifier_mappings_cases in Hm as [[-> _]|[-> _]]. }
  pose proof (mapped_type_not_event_source _ _ Hm) as Hsource.
  destruct (getattr c attribute_name) as [| | | | |[m|table_name n]|] eqn:Hattr.
  1-6,8:
    (split;
     [unfold _WriteNewAttributeContainer,
        _GetAttributeContainerNextSequenceNumber;
      cbn beta iota zeta;
      rewrite (UpdateBeforeSerialize_unsupported (SetIdentifier c _) _ _ _ Hm)
        by (intros ??; rewrite getattr_SetIdentifier, Hattr; done);
      done
     |unfold _WriteExistingAttributeContainer;
      destruct (GetIdentifier c) as [[?|??]|]; try done;
      rewrite Hschema; cbn [negb];
      rewrite (UpdateBeforeSerialize_unsupported _ _ _ _ Hm)
        by (intros ??; rewrite Hattr; done);
      done]).
  split.
  - set (c0 := SetIdentifier c (next_identifier self c)).
    assert (_UpdateAttributeContainerBeforeSerialize c0
            = Ok (setattr c0 serialized_attribute_name (PyInt n))) as Hb
      by (by eapply UpdateBeforeSerialize_mapped).
    destruct (new_record_mapped self
                (setattr c0 serialized_attribute_name (PyInt n))
                _ _ _ table_name n Hm) as (record & Hr & Hnot & Hval).
    { by rewrite getattr_setattr_ne. }
    { by rewrite getattr_setattr_eq. }
    eexists _, record.
    split; [exact Hb|]. split; [done|]. split; [exact Hr|].
    split; [exact Hnot|]. split; [exact Hval|]. split.
    + intros self' written H.
      apply WriteNew_Ok in H
        as (r & vs & db & db' & Hb' & Hr' & Hc & Hv & Hi & Hs).
      assert (written = setattr c0 serialized_attribute_name (PyInt n)) as ->.
      { change (_UpdateAttributeContainerBeforeSerialize c0 = Ok written)
          in Hb'. congruence. }
      split; [done|].
      rewrite Hr in Hr'. injection Hr' as <-.
      exists vs, db, db'. repeat split; try done.
      destruct Hs as (Hconn & _). unfold cursor. rewrite Hconn.
      unfold cursor in Hc. simpl. by destruct (_connection self).
    + intros db t values Hc Ht Hcols Hv.
      unfold _WriteNewAttributeContainer,
        _GetAttributeContainerNextSequenceNumber.
      cbn beta iota zeta.
      change (SetIdentifier c (SQLTableIdentifier _ _)) with c0.
      rewrite Hb. cbn [bind].
      rewrite new_record_set_sequence_numbers, Hr. cbn [bind].
      destruct record as [column_names record_values]. cbn [fst snd] in *.
      rewrite cursor_set_sequence_numbers, Hc. cbn [bind].
      rewrite Hv. cbn [bind].
      change (CONTAINER_TYPE (setattr c0 serialized_attribute_name (PyInt n)))
        with (CONTAINER_TYPE c).
      rewrite (insert_returns _ _ t) by done.
      cbn [except_OperationalError bind].
      rewrite Hsource, andb_false_r. eexists. split; [done|].
      unfold cursor in *. simpl. by destruct (_connection self).
  - assert (_UpdateAttributeContainerBeforeSerialize c
            = Ok (setattr c serialized_attribute_name (PyInt n))) as Hb
      by (by eapply UpdateBeforeSerialize_mapped).
    destruct (existing_record_mapped
                (setattr c serialized_attribute_name (PyInt n))
                _ _ _ n Hm) as (record & Hr & Hnot & Hval).
    { by rewrite getattr_setattr_eq. }
    eexists _, record.
    split; [exact Hb|]. split; [done|]. split; [exact Hr|].
    split; [exact Hnot|]. split; [exact Hval|]. split.
    + intros self' written H.
      apply WriteExisting_Ok in H
        as (t & m & r & vs & db & db' & Hid & Hb' & Hr' & Hc & Hv & Hu & ->).
      assert (written = setattr c serialized_attribute_name (PyInt n)) as ->
        by congruence.
      split; [done|].
      rewrite Hr in Hr'. injection Hr' as <-.
      exists t, m, vs, db, db'. repeat split; try done.
      unfold cursor in *. simpl. by destruct (_connection self).
    + intros row_table row db t values Hid Hc Ht Hcols Hv.
      unfold _WriteExistingAttributeContainer.
      rewrite Hid, Hschema. cbn [negb]. rewrite Hb. cbn [bind].
      rewrite Hr. cbn [bind].
      destruct record as [column_names record_values]. cbn [fst snd] in *.
      rewrite Hc. cbn [bind]. rewrite Hv. cbn [bind].
      change (CONTAINER_TYPE (setattr c serialized_attribute_name (PyInt n)))
        with (CONTAINER_TYPE c).
      rewrite (update_returns _ _ t) by done.
      cbn [except_OperationalError bind].
      eexists. split; [done|].
      unfold cursor in *. simpl. by destruct (_connection self).
Qed.

(** A store to which one event has been added writes a second event, which
    refers to the event data of row 1, and writes the first event again with
    another timestamp: both writes return, and the rows hold the sequence
    number 1 under the serialized name and nothing under the runtime name. A
    container that refers to nothing is not written. *)
Lemma write_rewrites_identifiers_witness :
  let self := Examples.store_with_event in
  (∃ self' rewritten t,
     _WriteNewAttributeContainer self (Examples.stored_event 20)
     = Ok (self', rewritten) ∧
     getattr rewritten "_event_data_row_identifier" = PyInt 1 ∧
     GetIdentifier rewritten = Some (SQLTableIdentifier "event" 2) ∧
     Examples.database_of self' !! "event" = Some t ∧
     Examples.event_columns t
     = [(Some (INTEGER 1), None, Some (INTEGER 10));
        (Some (INTEGER 1), None, Some (INTEGER 20))]) ∧
  (∃ self' rewritten t,
     _WriteExistingAttributeContainer self Examples.existing_event
     = Ok (self', rewritten) ∧
     getattr rewritten "_event_data_row_identifier" = PyInt 1 ∧
     Examples.database_of self' !! "event" = Some t ∧
     Examples.event_columns t
     = [(Some (INTEGER 1), None, Some (INTEGER 30))]) ∧
  _WriteNewAttributeContainer self (Examples.event 10)
  = Raise (IOError "Unsupported attribute container identifier type").
Proof.
  intros self. split; [|split].
  - pose proof (write_rewrites_identifiers self (Examples.stored_event 20)
                  "event_data" "_event_data_identifier"
                  "_event_data_row_identifier") as H.
    assert (getattr (Examples.stored_event 20) "_event_data_identifier"
            = PyIdentifier (SQLTableIdentifier "event_data" 1)) as Hg
      by reflexivity.
    rewrite Hg in H.
    destruct H as [(rewritten & record & Hb & -> & Hr & _ & _ & _ & Hret) _].
    { apply list_elem_of_here. }
    vm_compute in Hr. injection Hr as <-.
    edestruct (Hret (Examples.database_of self)
                 (Examples.table_of self "event")) as (self' & Hw & Hc).
    { vm_compute. reflexivity. }
    { vm_compute. reflexivity. }
    { vm_compute. reflexivity. }
    { vm_compute. reflexivity. }
    eexists self', _, _. split; [exact Hw|].
    split; [reflexivity|]. split; [reflexivity|].
    unfold Examples.database_of. rewrite Hc.
    split; [apply lookup_insert_eq|]. vm_compute. reflexivity.
  - pose proof (write_rewrites_identifiers self Examples.existing_event
                  "event_data" "_event_data_identifier"
                  "_event_data_row_identifier") as H.
    assert (getattr Examples.existing_event "_event_data_identifier"
            = PyIdentifier (SQLTableIdentifier "event_data" 1)) as Hg
      by reflexivity.
    rewrite Hg in H.
    destruct H as [_ (rewritten & record & Hb & -> & Hr & _ & _ & _ & Hret)].
    { apply list_elem_of_here. }
    vm_compute in Hr. injection Hr as <-.
    edestruct (Hret "event" 1 (Examples.database_of self)
                 (Examples.table_of self "event")) as (self' & Hw & Hc).
    { reflexivity. }
    { vm_compute. reflexivity. }
    { vm_compute. reflexivity. }
    { vm_compute. reflexivity. }
    { vm_compute. reflexivity. }
    eexists self', _, _. split; [exact Hw|]. split; [reflexivity|].
    unfold Examples.database_of. rewrite Hc.
    split; [apply lookup_insert_eq|]. vm_compute. reflexivity.
  - pose proof (write_rewrites_identifiers self (Examples.event 10)
                  "event_data" "_event_data_identifier"
                  "_event_data_row_identifier") as H.
    assert (getattr (Examples.event 10) "_event_data_identifier" = PyNone)
      as Hg by reflexivity.
    rewrite Hg in H. apply H, list_elem_of_here.
Defined.

End SQLiteRewrite.

(** ** Stores that are closed or read-only *)

Module ClosedStores.

Section closed.
Context {container_types : ContainerTypes}.

Lemma cursor_closed self :
  SQLite.closed self →
  SQLite.cursor self
  = Raise (AttributeError "NoneType object has no attribute execute").
Proof. intros [_ Hc]. unfold SQLite.cursor. by rewrite Hc. Qed.

(** The SQLite store that was never opened, and the SQLite store that
    [Close] has closed, are closed. *)
Lemma closed_init storage_type : SQLite.closed (SQLite.__init__ storage_type).
Proof. done. Qed.

Lemma closed_Close files self files' self' :
  SQLite.Close files self = Ok (files', self') → SQLite.closed self'.
Proof.
  unfold SQLite.Close. destruct (negb _); [done|]. by intros [= _ <-].
Qed.

(** What is read from a closed SQLite store raises, since the store has no
    cursor; a container that is in the cache is another matter. *)
Lemma closed_sqlite_reads self container_type time_range event_identifier
    index :
  SQLite.closed self →
  SQLite.GetAttributeContainers self container_type
  = Raise (AttributeError "NoneType object has no attribute execute") ∧
  SQLite.GetSortedEvents self time_range
  = Raise (AttributeError "NoneType object has no attribute execute") ∧
  raises (SQLite.GetNumberOfAttributeContainers self container_type) ∧
  raises (SQLite.HasAttributeContainers self container_type) ∧
  (SQLite._use_schema self = true →
   SQLite.GetEventTagByEventIdentifier self event_identifier
   = Raise (AttributeError "NoneType object has no attribute execute")) ∧
  (OrderedDict.get (SQLite._attribute_container_cache self)
     (SQLite.lookup_key container_type index) = None →
   SQLite.GetAttributeContainerByIndex self container_type index
   = Raise (AttributeError "NoneType object has no attribute execute")).
Proof.
  intros Hclosed. pose proof (cursor_closed self Hclosed) as Hc.
  assert (raises (SQLite.GetNumberOfAttributeContainers self container_type))
    as Hn.
  { unfold SQLite.GetNumberOfAttributeContainers, SQLite._HasTable.
    rewrite Hc. destruct (negb _); by eexists. }
  split; [|split; [|split; [|split; [|split]]]].
  - unfold SQLite.GetAttributeContainers,
      SQLite._GetAttributeContainersWithFilter. by rewrite Hc.
  - unfold SQLite.GetSortedEvents.
    destruct (_ && _);
      unfold SQLite._GetAttributeContainersWithFilter; by rewrite Hc.
  - done.
  - unfold SQLite.HasAttributeContainers. destruct Hn as [e ->]. by eexists.
  - intros Hs. unfold SQLite.GetEventTagByEventIdentifier. rewrite Hs.
    change (SQLite.nonempty (SQLite.schema_of _CONTAINER_TYPE_EVENT_TAG))
      with true.
    cbn [negb orb]. unfold SQLite._GetAttributeContainersWithFilter.
    by rewrite Hc.
  - intros Hmiss. unfold SQLite.GetAttributeContainerByIndex,
      SQLite._GetCachedAttributeContainer.
    rewrite Hmiss. by rewrite Hc.
Qed.

(** C6, as far as it holds. A write (the addition or the update of a
    container) to a closed store raises an [IOError], for both stores, and so
    does a write to a SQLite store that was opened read-only. What is read
    from a closed SQLite store (a store that was never opened or that [Close]
    has closed) raises: iteration, the events in chronological order, the
    number of containers and their presence; the event tag of an event, for
    a store that uses the schema; and a container by index or by identifier
    that is not in the cache. The in-memory store raises an [IOError] for the
    events in chronological order of a closed store; its other operations
    (by identifier, by index, iteration, number of containers, their
    presence, the event tag of an event) return, once [Close] has closed the
    store, what they returned before; and the in-memory store that [Open] was
    asked to open read-only writes a new container as any open store does. *)
Theorem writes_to_closed_or_read_only_stores :
  (∀ (w : Fake.World) container time_range,
     Fake._is_open (Fake.store w) = false →
     Fake.AddAttributeContainer w container
     = Raise (IOError "Unable to write to closed storage writer.") ∧
     Fake.UpdateAttributeContainer w container
     = Raise (IOError "Unable to write to closed storage writer.") ∧
     Fake.GetSortedEvents w time_range
     = Raise (IOError "Unable to read from closed storage writer.")) ∧
  (∀ (self : SQLite.SQLiteStorageFile) container,
     SQLite._is_open self = false →
     SQLite.AddAttributeContainer self container
     = Raise (IOError "Unable to write to closed storage file.") ∧
     SQLite.UpdateAttributeContainer self container
     = Raise (IOError "Unable to write to closed storage file.")) ∧
  (∀ (self : SQLite.SQLiteStorageFile) container,
     SQLite._is_open self = true → SQLite._read_only self = true →
     SQLite.AddAttributeContainer self container
     = Raise (IOError "Unable to write to read-only storage file.") ∧
     SQLite.UpdateAttributeContainer self container
     = Raise (IOError "Unable to write to read-only storage file.")) ∧
  (∀ storage_type files self files' self',
     SQLite.closed (SQLite.__init__ storage_type) ∧
     (SQLite.Close files self = Ok (files', self') → SQLite.closed self')) ∧
  (∀ (self : SQLite.SQLiteStorageFile) container_type time_range
     event_identifier index i,
     SQLite.closed self →
     raises (SQLite.GetAttributeContainers self container_type) ∧
     raises (SQLite.GetSortedEvents self time_range) ∧
     raises (SQLite.GetNumberOfAttributeContainers self container_type) ∧
     raises (SQLite.HasAttributeContainers self container_type) ∧
     (SQLite._use_schema self = true →
      raises (SQLite.GetEventTagByEventIdentifier self event_identifier)) ∧
     (OrderedDict.get (SQLite._attribute_container_cache self)
        (SQLite.lookup_key container_type index) = None →
      raises (SQLite.GetAttributeContainerByIndex self container_type index))
     ∧
     (OrderedDict.get (SQLite._attribute_container_cache self)
        (SQLite.lookup_key container_type (sequence_number i - 1)) = None →
      raises
        (SQLite.GetAttributeContainerByIdentifier self container_type
           (Some i)))) ∧
  (∀ (self closed : Fake.FakeStore) container_type i index,
     Fake.Close self = Ok closed →
     Fake.GetAttributeContainerByIdentifier closed container_type i
     = Fake.GetAttributeContainerByIdentifier self container_type i ∧
     Fake.GetAttributeContainerByIndex closed container_type index
     = Fake.GetAttributeContainerByIndex self container_type index ∧
     Fake.GetAttributeContainers closed container_type
     = Fake.GetAttributeContainers self container_type ∧
     Fake.GetNumberOfAttributeContainers closed container_type
     = Fake.GetNumberOfAttributeContainers self container_type ∧
     Fake.HasAttributeContainers closed container_type
     = Fake.HasAttributeContainers self container_type ∧
     Fake.GetEventTagByEventIdentifier closed i
     = Fake.GetEventTagByEventIdentifier self i) ∧
  (∀ (w : Fake.World) (opened : Fake.FakeStore) container,
     Fake.Open (Fake.store w) true = Ok opened →
     let w' := {| Fake.objects := Fake.objects w; Fake.store := opened |} in
     Fake.AddAttributeContainer w' container
     = Fake._WriteNewAttributeContainer w' container ∧
     Fake.UpdateAttributeContainer w' container
     = Fake._WriteExistingAttributeContainer w' container).
Proof.
  split; [|split; [|split; [|split; [|split; [|split]]]]].
  - intros w container time_range Hclosed.
    unfold Fake.AddAttributeContainer, Fake.UpdateAttributeContainer,
      Fake.GetSortedEvents, Fake._RaiseIfNotWritable.
    by rewrite Hclosed.
  - intros self container Hclosed.
    unfold SQLite.AddAttributeContainer, SQLite.UpdateAttributeContainer,
      SQLite._RaiseIfNotWritable.
    by rewrite Hclosed.
  - intros self container Hopen Hro.
    unfold SQLite.AddAttributeContainer, SQLite.UpdateAttributeContainer,
      SQLite._RaiseIfNotWritable.
    by rewrite Hopen, Hro.
  - intros. split; [apply closed_init | apply closed_Close].
  - intros self container_type time_range event_identifier index i Hclosed.
    destruct (closed_sqlite_reads self container_type time_range
                event_identifier index Hclosed)
      as (H1 & H2 & H3 & H4 & H5 & H6).
    split; [by eexists|]. split; [by eexists|]. split; [done|].
    split; [done|]. split; [intros; by eexists; apply H5|].
    split; [intros; by eexists; apply H6|].
    intros Hmiss. unfold SQLite.GetAttributeContainerByIdentifier.
    destruct i as [m|name m]; [by eexists|]. simpl in Hmiss.
    destruct (closed_sqlite_reads self container_type time_range
                event_identifier (m - 1) Hclosed)
      as (_ & _ & _ & _ & _ & H7).
    eexists. by apply H7.
  - intros self closed container_type i index. unfold Fake.Close.
    destruct (negb _); [done|]. by intros [= <-].
  - intros w opened container. unfold Fake.Open.
    destruct (Fake._is_open (Fake.store w)); [done|]. by intros [= <-].
Qed.

End closed.

(** Where the claim fails. The closed in-memory store answers: it has one
    event. The in-memory store that [Open] was asked to open read-only adds
    a container. The closed SQLite store returns the event source that is
    in its cache; and the closed SQLite store of a file without a schema
    returns [None] for the event tag of an event. *)
Lemma closed_store_counts :
  Fake.GetNumberOfAttributeContainers (Fake.store Examples.closed_world)
    "event" = Ok 1 ∧
  Fake._is_open (Fake.store Examples.closed_world) = false ∧
  (∃ w, Fake.AddAttributeContainer Examples.read_only_world 0%nat = Ok w) ∧
  SQLite.closed Examples.closed_store_with_event_source ∧
  (∃ event_source,
     SQLite.GetAttributeContainerByIndex
       Examples.closed_store_with_event_source "event_source" 0
     = Ok (Examples.closed_store_with_event_source, Some event_source) ∧
     getattr event_source "data_type" = PyStr "os:file") ∧
  SQLite.closed Examples.closed_old_store ∧
  SQLite.GetEventTagByEventIdentifier Examples.closed_old_store
    (SQLTableIdentifier "event" 1) = Ok None.
Proof.
  split; [reflexivity|]. split; [reflexivity|].
  split; [eexists; vm_compute; reflexivity|].
  split; [split; reflexivity|].
  split; [eexists; split; vm_compute; reflexivity|].
  split; [split; reflexivity|]. reflexivity.
Qed.

(** A store that was never opened and a store that was closed, both kinds
    of store; the in-memory store that [Open] was asked to open read-only;
    and the SQLite store that has opened a file read-only. *)
Lemma writes_to_closed_or_read_only_stores_witness :
  Fake.AddAttributeContainer Examples.closed_world 0%nat
  = Raise (IOError "Unable to write to closed storage writer.") ∧
  SQLite.AddAttributeContainer Examples.closed_store_with_event_source
    (Examples.event 10)
  = Raise (IOError "Unable to write to closed storage file.") ∧
  SQLite.AddAttributeContainer Examples.read_only_old_store
    (Examples.event 10)
  = Raise (IOError "Unable to write to read-only storage file.") ∧
  raises
    (SQLite.GetNumberOfAttributeContainers
       (container_types := Examples.example_container_types)
       Examples.closed_store_with_event_source "event_source") ∧
  raises
    (SQLite.GetAttributeContainerByIndex
       Examples.closed_store_with_event_source "event_source" 1) ∧
  Fake.GetNumberOfAttributeContainers (Fake.store Examples.closed_world)
    "event"
  = Fake.GetNumberOfAttributeContainers (Fake.store Examples.world_with_event)
      "event" ∧
  Fake.AddAttributeContainer Examples.read_only_world 0%nat
  = Fake._WriteNewAttributeContainer Examples.read_only_world 0%nat.
Proof.
  pose proof (writes_to_closed_or_read_only_stores
                (container_types := Examples.example_container_types))
    as (Hfake & Hclosed & Hro & _ & Hreads & Hanswers & Hopen).
  split; [|split; [|split; [|split; [|split; [|split]]]]].
  - apply Hfake; [exact None | reflexivity].
  - apply Hclosed. reflexivity.
  - apply Hro; reflexivity.
  - apply (Hreads Examples.closed_store_with_event_source "event_source"
             None (FakeIdentifier 1) 1 (FakeIdentifier 1)).
    split; reflexivity.
  - apply (Hreads Examples.closed_store_with_event_source "event_source"
             None (FakeIdentifier 1) 1 (FakeIdentifier 1));
      [split; reflexivity | reflexivity].
  - apply (Hanswers (Fake.store Examples.world_with_event)
             (Fake.store Examples.closed_world) "event" (FakeIdentifier 1) 0).
    reflexivity.
  - apply (Hopen {| Fake.objects := [Examples.event 10];
                    Fake.store := Fake.__init__ "session" |}
             (Fake.store Examples.read_only_world) 0%nat).
    reflexivity.
Defined.

End ClosedStores.

(** ** The event tag of an event *)

Module EventTags.
Import sqlite3 SQLite SQLiteRewrite.

Lemma select_Ok db name t column_names conditions order :
  db !! name = Some t →
  forallb (has_column t) column_names = true →
  forallb (has_column t) conditions.*1.*1 = true →
  forallb (has_column t) (option_list order) = true →
  select db name column_names conditions order
  = Ok ((λ '(rowid, row), column_value rowid row <$> column_names) <$>
          match order with
          | Some column =>
              order_by
                (λ '(i, r) '(j, s),
                   sql_le (column_value i r column) (column_value j s column))
                (filter
                   (λ '(rowid, row),
                      satisfies_all rowid row conditions = true)
                   (numbered_rows t))
          | None =>
              filter
                (λ '(rowid, row), satisfies_all rowid row conditions = true)
                (numbered_rows t)
          end).
Proof.
  intros Ht H1 H2 H3. unfold select, get_table, check_columns.
  rewrite Ht. simpl. by rewrite H1, H2, H3.
Qed.

(** The rows that the query for the event tags of an event selects are the
    rows of [tags_of_event], with their rowids. *)
Lemma filter_numbered_rows (l : list (gmap string sqlvalue)) n
    (f : nat → Z) :
  (filter
     (λ '(rowid, row),
        satisfies_all rowid row [("_event_row_identifier", Equal, n)] = true)
     (imap (λ i row, (f i, row)) l)).*2
  = filter
      (λ row,
         satisfies (default NULL (row !! "_event_row_identifier")) Equal n
         = true) l.
Proof.
  revert f. induction l as [|row l IH]; intros f; [done|].
  rewrite imap_cons, !filter_cons. simpl.
  rewrite andb_true_r.
  change (column_value (f 0%nat) row "_event_row_identifier")
    with (default NULL (row !! "_event_row_identifier")).
  specialize (IH (f ∘ S)).
  destruct (decide _); simpl; by rewrite <- IH.
Qed.

Lemma sorted_keys_event_tag :
  sorted_keys (schema_of "event_tag") = ["_event_row_identifier"; "labels"].
Proof. vm_compute. reflexivity. Qed.

Lemma has_column_identifier t : has_column t "_identifier" = true.
Proof. unfold has_column. by eval_eqb. Qed.

Lemma satisfies_Equal v n : satisfies v Equal n = true → v = INTEGER n.
Proof. destruct v; simpl; try done. by intros ->%Z.eqb_eq. Qed.

(** The container of a selected row of event tags. *)
Lemma event_tag_from_row self rid n row :
  _use_schema self = true →
  satisfies (default NULL (row !! "_event_row_identifier")) Equal n = true →
  readable_labels row →
  ∃ container event_tag,
    _CreatetAttributeContainerFromRow self "event_tag"
      ["_event_row_identifier"; "labels"]
      [default NULL (row !! "_event_row_identifier");
       default NULL (row !! "labels")] = Ok container ∧
    _UpdateAttributeContainerAfterDeserialize
      (SetIdentifier container (SQLTableIdentifier "event_tag" rid))
    = Ok event_tag ∧
    GetIdentifier event_tag = Some (SQLTableIdentifier "event_tag" rid) ∧
    GetEventIdentifier event_tag
      = PyIdentifier (SQLTableIdentifier "event" n).
Proof.
  intros Hs Hn Hl. apply satisfies_Equal in Hn. rewrite Hn.
  unfold readable_labels in Hl.
  unfold _CreatetAttributeContainerFromRow. rewrite Hs.
  destruct (default NULL (row !! "labels")) as [| | |[v|]|]; try done.
  - unfold schema_of, _CONTAINER_SCHEMAS,
      _UpdateAttributeContainerAfterDeserialize,
      _CONTAINER_SCHEMA_IDENTIFIER_MAPPINGS.
    py_eval. eexists. eexists. split; [done|].
    py_eval. rewrite getattr_SetIdentifier, getattr_setattr_eq.
    split; [done|]. split; [done|].
    unfold GetEventIdentifier.
    by rewrite getattr_delattr_ne, getattr_setattr_eq.
  - unfold schema_of, _CONTAINER_SCHEMAS,
      _UpdateAttributeContainerAfterDeserialize,
      _CONTAINER_SCHEMA_IDENTIFIER_MAPPINGS.
    py_eval. eexists. eexists. split; [done|]. py_eval.
    rewrite getattr_SetIdentifier, getattr_setattr_ne, getattr_setattr_eq
      by done.
    split; [done|]. split; [done|].
    unfold GetEventIdentifier.
    by rewrite getattr_delattr_ne, getattr_setattr_eq.
Qed.

(** The containers of the selected rows of event tags: one per row. *)
Lemma event_tags_from_rows self n (l : list (Z * gmap string sqlvalue)) :
  _use_schema self = true →
  Forall (λ x, satisfies (default NULL (x.2 !! "_event_row_identifier"))
                 Equal n = true ∧ readable_labels x.2) l →
  ∃ event_tags,
    containers_from_rows self "event_tag" ["_event_row_identifier"; "labels"]
      ((λ '(rowid, row),
          column_value rowid row <$>
            ["_identifier"; "_event_row_identifier"; "labels"]) <$> l)
    = Ok event_tags ∧
    Forall2 (λ x event_tag,
               GetIdentifier event_tag
                 = Some (SQLTableIdentifier "event_tag" x.1) ∧
               GetEventIdentifier event_tag
                 = PyIdentifier (SQLTableIdentifier "event" n)) l event_tags.
Proof.
  intros Hs. induction 1 as [|[rid row] l [Hn Hl] _ (tags & IH & Htags)].
  { by exists []. }
  destruct (event_tag_from_row self rid n row Hs Hn Hl)
    as (c0 & tag & Hc & Ha & Hid & Hev).
  exists (tag :: tags). split; [|by constructor].
  rewrite fmap_cons. cbn [containers_from_rows].
  change (column_value rid row <$>
            ["_identifier"; "_event_row_identifier"; "labels"])
    with [INTEGER rid; default NULL (row !! "_event_row_identifier");
          default NULL (row !! "labels")].
  cbn [tail hd]. rewrite Hc. cbn [bind py_of_sql row_identifier_of].
  rewrite Ha. cbn [bind]. by rewrite IH.
Qed.

(** The event tag of an event, for a store that uses the schema: the event
    tag of the only row that refers to the event, and [None] when no row or
    more than one row does. *)
Lemma GetEventTagByEventIdentifier_rows self db t event_identifier :
  _use_schema self = true →
  cursor self = Ok db → db !! _CONTAINER_TYPE_EVENT_TAG = Some t →
  forallb (has_column t) ["_event_row_identifier"; "labels"] = true →
  Forall readable_labels (tags_of_event t (sequence_number event_identifier)) →
  match tags_of_event t (sequence_number event_identifier) with
  | [row] =>
      ∃ event_tag,
        GetEventTagByEventIdentifier self event_identifier
        = Ok (Some event_tag) ∧
        GetEventIdentifier event_tag
        = PyIdentifier
            (SQLTableIdentifier "event" (sequence_number event_identifier))
  | _ => GetEventTagByEventIdentifier self event_identifier = Ok None
  end.
Proof.
  intros Hs Hc Ht Hcols Hread.
  set (n := sequence_number event_identifier) in *.
  unfold GetEventTagByEventIdentifier, _CONTAINER_TYPE_EVENT_TAG in *.
  rewrite Hs. change (nonempty (schema_of "event_tag")) with true.
  cbn [negb orb]. rewrite sorted_keys_event_tag.
  unfold _GetAttributeContainersWithFilter. rewrite Hc. cbn [bind].
  rewrite (select_Ok db _ t); [|done| | |done].
  2:{ cbn [forallb]. by rewrite has_column_identifier. }
  2:{ cbn [forallb] in Hcols. apply andb_true_iff in Hcols as [Hcol _].
      change (has_column t "_event_row_identifier" && true = true).
      by rewrite Hcol. }
  cbn [except_OperationalError bind].
  set (selected := filter _ (numbered_rows t)).
  assert (selected.*2 = tags_of_event t n) as Hsel
    by apply filter_numbered_rows.
  destruct (event_tags_from_rows self n selected Hs) as (tags & -> & Htags).
  { apply Forall_forall. intros [rid row] Hx. simpl.
    assert (row ∈ tags_of_event t n) as Hrow.
    { rewrite <- Hsel. apply list_elem_of_fmap. by exists (rid, row). }
    split.
    - by apply list_elem_of_filter in Hrow as [? _].
    - rewrite Forall_forall in Hread. by apply Hread. }
  cbn [bind]. pose proof (Forall2_length _ _ _ Htags) as Hlen.
  assert (length selected = length (tags_of_event t n)) as Hlen'
    by (by rewrite <- Hsel, length_fmap).
  destruct (tags_of_event t n) as [|row [|row' rows']];
    destruct tags as [|tag [|tag' tags']]; simpl in *; try lia; try done.
  exists tag. split; [done|].
  destruct selected as [|x selected]; [done|].
  by apply Forall2_cons in Htags as [[_ ?] _].
Qed.

Lemma insert_Ok db name column_names values db' :
  insert db name column_names values = Ok db' →
  ∃ t, db !! name = Some t ∧
       forallb (has_column t) column_names = true ∧
       db' = <[name := {| column_definitions := column_definitions t;
                          rows := (rows t ++
                                   [list_to_map (zip column_names values)])%list
                       |}]> db.
Proof.
  unfold insert, get_table, check_columns. intros H.
  destruct (db !! name) as [t|]; [|done]. simpl in H.
  destruct (forallb _ _) eqn:Hf; [|done]. simpl in H. injection H as <-.
  by exists t.
Qed.

Lemma cursor_same_except_cache self self' :
  same_except_cache self' self → cursor self' = cursor self.
Proof. intros (Hc & _). unfold cursor. by rewrite Hc. Qed.

Lemma cursor_set_database self db db' :
  cursor self = Ok db → cursor (set_database self db') = Ok db'.
Proof. unfold cursor. simpl. by destruct (_connection self). Qed.

(** The row that the addition of an event tag inserts, for a store that
    uses the schema. *)
Lemma add_event_tag_row self event_tag self' written name n :
  AddAttributeContainer self event_tag = Ok (self', written) →
  CONTAINER_TYPE event_tag = _CONTAINER_TYPE_EVENT_TAG →
  GetEventIdentifier event_tag = PyIdentifier (SQLTableIdentifier name n) →
  _use_schema self = true →
  ∃ db t row,
    cursor self = Ok db ∧ db !! _CONTAINER_TYPE_EVENT_TAG = Some t ∧
    forallb (has_column t) ["_event_row_identifier"; "labels"] = true ∧
    cursor self'
    = Ok (<[_CONTAINER_TYPE_EVENT_TAG :=
              {| column_definitions := column_definitions t;
                 rows := (rows t ++ [row])%list |}]> db) ∧
    satisfies (default NULL (row !! "_event_row_identifier")) Equal n = true ∧
    readable_labels row ∧
    _use_schema self' = true.
Proof.
  unfold AddAttributeContainer, _CONTAINER_TYPE_EVENT_TAG, GetEventIdentifier.
  intros H Ht Hev Hs. inv_bind H. clear Ha.
  apply WriteNew_Ok in H as (record & values & db & db' & Hb & Hr & Hc & Hv
                             & Hi & Hsame).
  rewrite Ht in *.
  erewrite UpdateBeforeSerialize_mapped in Hb; cycle 1.
  { simpl. rewrite Ht. apply list_elem_of_here. }
  { by rewrite getattr_SetIdentifier, Hev. }
  injection Hb as <-.
  unfold new_record in Hr. rewrite Hs in Hr. simpl in Hr. rewrite Ht in Hr.
  change (nonempty (schema_of "event_tag")) with true in Hr.
  rewrite sorted_keys_event_tag, sorted_items_event_tag in Hr.
  rewrite schema_values_no_bool in Hr by (repeat constructor).
  cbn [bind] in Hr. injection Hr as <-. cbn [fst snd] in *.
  rewrite (schema_value_identifier _ _ n) in Hv
    by (by rewrite getattr_setattr_eq).
  cbn [snd fst] in *.
  apply insert_Ok in Hi as (t & Hdb & Hcols & ->).
  set (labels := schema_value _ ("labels", "List[str]")) in *.
  assert (∃ vl, values = [INTEGER n; vl] ∧
                match vl with
                | NULL | JSON (SerializedValue _) => True
                | _ => False
                end) as (vl & -> & Hvl).
  { unfold schema_value in labels. cbn [fst snd] in labels.
    change (has_sqlite_type "List[str]") with false in labels.
    destruct (getattr _ "labels") eqn:E; subst labels; simpl in Hv;
      injection Hv as <-; by eexists. }
  exists db, t, (list_to_map
                   (zip ["_event_row_identifier"; "labels"] [INTEGER n; vl])).
  split; [done|]. split; [done|]. split; [done|]. split; [|split; [|split]].
  - rewrite (cursor_same_except_cache _ _ Hsame).
    unfold cursor in *. simpl. by destruct (_connection self).
  - simpl. rewrite lookup_insert_eq. simpl. apply Z.eqb_refl.
  - unfold readable_labels. simpl.
    by rewrite lookup_insert_ne, lookup_insert_eq.
  - destruct Hsame as (_ & _ & _ & -> & _). done.
Qed.

(** The event tag of an event, in the SQLite store, after two event tags
    have been added for the event: [None]. *)
Lemma two_event_tags self tag1 tag2 self1 self2 written1 written2 name n
    event_identifier :
  CONTAINER_TYPE tag1 = _CONTAINER_TYPE_EVENT_TAG →
  CONTAINER_TYPE tag2 = _CONTAINER_TYPE_EVENT_TAG →
  GetEventIdentifier tag1 = PyIdentifier (SQLTableIdentifier name n) →
  GetEventIdentifier tag2 = PyIdentifier (SQLTableIdentifier name n) →
  sequence_number event_identifier = n →
  event_tags_readable self →
  AddAttributeContainer self tag1 = Ok (self1, written1) →
  AddAttributeContainer self1 tag2 = Ok (self2, written2) →
  GetEventTagByEventIdentifier self2 event_identifier = Ok None.
Proof.
  intros Ht1 Ht2 He1 He2 Hn Hread Ha1 Ha2.
  destruct (_use_schema self) eqn:Hs.
  2:{ assert (_use_schema self2 = false) as Hs2.
      { unfold AddAttributeContainer in *. inv_bind Ha1. inv_bind Ha2.
        apply WriteNew_Ok in Ha1 as (?&?&?&?&_&_&_&_&_&_&_&_&H1&_).
        apply WriteNew_Ok in Ha2 as (?&?&?&?&_&_&_&_&_&_&_&_&H2&_).
        simpl in *. congruence. }
      unfold GetEventTagByEventIdentifier. by rewrite Hs2. }
  destruct (add_event_tag_row _ _ _ _ _ _ Ha1 Ht1 He1 Hs)
    as (db & t & row1 & Hc & Hdb & Hcols & Hc1 & Hrow1 & Hl1 & Hs1).
  destruct (add_event_tag_row _ _ _ _ _ _ Ha2 Ht2 He2 Hs1)
    as (db1 & t1 & row2 & Hc1' & Hdb1 & Hcols1 & Hc2 & Hrow2 & Hl2 & Hs2).
  rewrite Hc1 in Hc1'. injection Hc1' as <-.
  rewrite lookup_insert_eq in Hdb1. injection Hdb1 as <-.
  simpl in Hc2. rewrite insert_insert_eq in Hc2.
  pose proof (GetEventTagByEventIdentifier_rows self2 _ _ event_identifier
                Hs2 Hc2 (lookup_insert_eq _ _ _) Hcols) as Hget.
  rewrite Hn in Hget. unfold tags_of_event in Hget. cbn [rows] in Hget.
  rewrite <- app_assoc, filter_app in Hget. cbn [app] in Hget.
  rewrite !filter_cons, filter_nil in Hget.
  rewrite !decide_True in Hget by done.
  assert (Forall readable_labels
            (filter
               (λ row, satisfies
                         (default NULL (row !! "_event_row_identifier"))
                         Equal n = true) (rows t) ++ [row1; row2])) as Hall.
  { apply Forall_app. split; [|by repeat constructor].
    apply Forall_forall. intros row [_ Hrow]%list_elem_of_filter.
    by eapply Hread. }
  specialize (Hget Hall).
  by destruct (filter _ (rows t)) as [|? [|? ?]].
Qed.

(** An event tag is added for an event that has no event tag in the SQLite
    store: the event tag of the event is then an event tag that refers to
    the event. *)
Lemma one_event_tag self tag1 self1 written1 name n event_identifier db t :
  CONTAINER_TYPE tag1 = _CONTAINER_TYPE_EVENT_TAG →
  GetEventIdentifier tag1 = PyIdentifier (SQLTableIdentifier name n) →
  sequence_number event_identifier = n →
  _use_schema self = true →
  cursor self = Ok db → db !! _CONTAINER_TYPE_EVENT_TAG = Some t →
  tags_of_event t n = [] →
  AddAttributeContainer self tag1 = Ok (self1, written1) →
  ∃ event_tag,
    GetEventTagByEventIdentifier self1 event_identifier = Ok (Some event_tag) ∧
    GetEventIdentifier event_tag = PyIdentifier (SQLTableIdentifier "event" n).
Proof.
  intros Ht1 He1 Hn Hs Hc Hdb Hnone Ha1.
  destruct (add_event_tag_row _ _ _ _ _ _ Ha1 Ht1 He1 Hs)
    as (db' & t' & row1 & Hc' & Hdb' & Hcols & Hc1 & Hrow1 & Hl1 & Hs1).
  rewrite Hc in Hc'. injection Hc' as <-.
  rewrite Hdb in Hdb'. injection Hdb' as <-.
  pose proof (GetEventTagByEventIdentifier_rows self1 _ _ event_identifier
                Hs1 Hc1 (lookup_insert_eq _ _ _) Hcols) as Hget.
  rewrite Hn in Hget. unfold tags_of_event in Hget, Hnone.
  cbn [rows] in Hget. rewrite filter_app, Hnone in Hget.
  cbn [app] in Hget. rewrite filter_cons, filter_nil in Hget.
  rewrite decide_True in Hget by done.
  apply Hget. by repeat constructor.
Qed.

(** C3, as far as it holds: two event tags that refer to the same event are
    added, one after the other. In the SQLite store (of which the rows of
    event tags have readable labels), the event tag of the event is then
    [None]; after the first of them alone, added for an event that had no
    event tag, it is an event tag of the event. In the in-memory store, the
    event tag of the event is then the event tag that was added last: the
    copy that the store has made of it. *)
Theorem event_tag_after_two_tags :
  (∀ self tag1 tag2 self1 self2 written1 written2 name n event_identifier,
     CONTAINER_TYPE tag1 = _CONTAINER_TYPE_EVENT_TAG →
     CONTAINER_TYPE tag2 = _CONTAINER_TYPE_EVENT_TAG →
     GetEventIdentifier tag1 = PyIdentifier (SQLTableIdentifier name n) →
     GetEventIdentifier tag2 = PyIdentifier (SQLTableIdentifier name n) →
     sequence_number event_identifier = n →
     event_tags_readable self →
     AddAttributeContainer self tag1 = Ok (self1, written1) →
     AddAttributeContainer self1 tag2 = Ok (self2, written2) →
     GetEventTagByEventIdentifier self2 event_identifier = Ok None) ∧
  (∀ self tag1 self1 written1 name n event_identifier db t,
     CONTAINER_TYPE tag1 = _CONTAINER_TYPE_EVENT_TAG →
     GetEventIdentifier tag1 = PyIdentifier (SQLTableIdentifier name n) →
     sequence_number event_identifier = n →
     _use_schema self = true →
     cursor self = Ok db → db !! _CONTAINER_TYPE_EVENT_TAG = Some t →
     tags_of_event t n = [] →
     AddAttributeContainer self tag1 = Ok (self1, written1) →
     ∃ event_tag,
       GetEventTagByEventIdentifier self1 event_identifier
       = Ok (Some event_tag) ∧
       GetEventIdentifier event_tag
       = PyIdentifier (SQLTableIdentifier "event" n)) ∧
  (∀ (w w1 w2 : Fake.World) tag1 tag2 c2 n,
     Fake.AddAttributeContainer w tag1 = Ok w1 →
     Fake.AddAttributeContainer w1 tag2 = Ok w2 →
     Fake.objects w1 !! tag2 = Some c2 →
     CONTAINER_TYPE c2 = _CONTAINER_TYPE_EVENT_TAG →
     GetEventIdentifier c2 = PyIdentifier (FakeIdentifier n) →
     ∃ m,
       Fake.GetEventTagByEventIdentifier (Fake.store w2) (FakeIdentifier n)
       = Ok (Some (length (Fake.objects w1))) ∧
       Fake.objects w2 !! length (Fake.objects w1)
       = Some (SetIdentifier c2 (FakeIdentifier m))).
Proof.
  split; [|split].
  - intros self tag1 tag2 self1 self2 written1 written2 name n
      event_identifier H1 H2 H3 H4 H5 H6 H7 H8.
    exact (two_event_tags _ _ _ _ _ _ _ _ _ _ H1 H2 H3 H4 H5 H6 H7 H8).
  - intros self tag1 self1 written1 name n event_identifier db t
      H1 H2 H3 H4 H5 H6 H7 H8.
    exact (one_event_tag _ _ _ _ _ _ _ _ _ H1 H2 H3 H4 H5 H6 H7 H8).
  - intros w w1 w2 tag1 tag2 c2 n _ Ha2 Hc2 Ht He.
    by eapply FakeWrites.add_event_tag_replaces.
Qed.

(** In the in-memory store, after an event and two event tags for it have
    been added, the event tag of the event is not [None]: it is the second
    event tag. *)
Lemma in_memory_second_event_tag :
  let w := Examples.world_with_two_tags in
  Fake.GetEventTagByEventIdentifier (Fake.store w) (FakeIdentifier 1)
  = Ok (Some 5%nat) ∧
  (λ c, getattr c "labels") <$> Fake.objects w !! 5%nat
  = Some (PyList ["benign"]) ∧
  Fake.GetEventTagByEventIdentifier (Fake.store w) (FakeIdentifier 1)
  ≠ Ok None.
Proof. vm_compute. done. Qed.

Lemma event_tag_after_two_tags_witness :
  GetEventTagByEventIdentifier Examples.store_with_two_tags
    (SQLTableIdentifier "event" 1) = Ok None ∧
  (∃ event_tag,
     GetEventTagByEventIdentifier Examples.store_with_one_tag
       (SQLTableIdentifier "event" 1) = Ok (Some event_tag) ∧
     GetEventIdentifier event_tag
     = PyIdentifier (SQLTableIdentifier "event" 1)) ∧
  ∃ m,
    Fake.GetEventTagByEventIdentifier
      (Fake.store Examples.world_with_two_tags) (FakeIdentifier 1)
    = Ok (Some 5%nat) ∧
    Fake.objects Examples.world_with_two_tags !! 5%nat
    = Some (SetIdentifier (Examples.event_tag (FakeIdentifier 1) "benign")
              (FakeIdentifier m)).
Proof.
  destruct event_tag_after_two_tags as (Hsqlite & Hone & Hfake).
  split; [|split].
  - apply (Hsqlite Examples.store_with_event
             (Examples.event_tag (SQLTableIdentifier "event" 1) "suspicious")
             (Examples.event_tag (SQLTableIdentifier "event" 1) "benign")
             Examples.store_with_one_tag Examples.store_with_two_tags
             (Examples.added Examples.store_with_event
                (Examples.event_tag (SQLTableIdentifier "event" 1)
                   "suspicious")).2
             (Examples.added Examples.store_with_one_tag
                (Examples.event_tag (SQLTableIdentifier "event" 1)
                   "benign")).2
             "event" 1 (SQLTableIdentifier "event" 1)
             eq_refl eq_refl eq_refl eq_refl eq_refl).
    + intros db t row Hc Ht Hrow. vm_compute in Hc. injection Hc as <-.
      vm_compute in Ht. injection Ht as <-. simpl in Hrow.
      by apply elem_of_nil in Hrow.
    + vm_compute. reflexivity.
    + vm_compute. reflexivity.
  - apply (Hone Examples.store_with_event
             (Examples.event_tag (SQLTableIdentifier "event" 1) "suspicious")
             Examples.store_with_one_tag
             (Examples.added Examples.store_with_event
                (Examples.event_tag (SQLTableIdentifier "event" 1)
                   "suspicious")).2
             "event" 1 (SQLTableIdentifier "event" 1)
             (Examples.database_of Examples.store_with_event)
             (Examples.table_of Examples.store_with_event "event_tag")
             eq_refl eq_refl eq_refl eq_refl).
    + vm_compute. reflexivity.
    + vm_compute. reflexivity.
    + vm_compute. reflexivity.
    + vm_compute. reflexivity.
  - apply (Hfake Examples.world_with_tag_objects Examples.world_with_one_tag
             Examples.world_with_two_tags 2%nat 3%nat
             (Examples.event_tag (FakeIdentifier 1) "benign") 1);
      reflexivity.
Defined.

End EventTags.
